(** * ReclameAquiScraper: a shallow embedding of
      [src/crawlers/crawler_reclame_aqui.py]

    The scraper is a Python object with six attributes that issues HTTP GET
    requests through a [requests.Session] and logs through [loguru].  The
    embedding keeps

    - the values decoded by [response.json()] as a type [json] of Python
      values, with Python's truthiness, [in], [[]], [.get], [+] and
      iteration written out, raising where Python raises;
    - the object's attributes as a record, threaded through a state monad
      whose state also holds the trace of requests sent and of calls made to
      the logger;
    - exceptions as an outcome of the monad that keeps the state reached
      when the exception was raised;
    - the network as a function from the number of earlier calls of
      [http.get] and the request to what that call returns or raises. *)

From Stdlib Require Import ZArith String Ascii List Bool Lia.
From Stdlib Require Import DecimalString SpecFloat.
From Stdlib Require DecimalZ.
Import ListNotations.

Local Open Scope string_scope.
Local Open Scope Z_scope.
Local Open Scope list_scope.

(** ** Python values *)

(** What [json.loads] can return.  [JNull] is Python's [None]; a [JObj]
    holds the items of a [dict] in insertion order, its keys distinct; a
    [JFloat] holds the IEEE value of a [float]. *)
#[local] Unset Elimination Schemes.
Inductive json : Type :=
| JNull
| JBool (b : bool)
| JInt (n : Z)
| JFloat (f : spec_float)
| JStr (s : string)
| JArr (items : list json)
| JObj (members : list (string * json)).
#[local] Set Elimination Schemes.

(** The exception classes that can reach the scraper's code.
    [RequestException] stands for [requests.RequestException] and its
    subclasses (connection errors, timeouts, exhausted retries, and the
    JSON decoding error of recent versions of [requests]); [ValueError] for
    the decoding error of older versions, which is not one of them. *)
Inductive exn : Type :=
| RequestException (msg : string)
| ValueError (msg : string)
| TypeError
| AttributeError
| KeyError.

Definition is_RequestException (e : exn) : bool :=
  match e with
  | RequestException _ => true
  | _ => false
  end.

Inductive outcome (A : Type) : Type :=
| Return (a : A)
| Raise (e : exn).
Arguments Return {A} a.
Arguments Raise {A} e.

Module Py.

(** [bool(v)] *)
Definition truthy (v : json) : bool :=
  match v with
  | JNull => false
  | JBool b => b
  | JInt n => negb (n =? 0)
  | JFloat (S754_zero _) => false
  | JFloat _ => true
  | JStr s => negb (s =? "")%string
  | JArr [] => false
  | JArr (_ :: _) => true
  | JObj [] => false
  | JObj (_ :: _) => true
  end.

(** Lookup of a key among the items of a dict. *)
Fixpoint dict_get (k : string) (m : list (string * json)) : option json :=
  match m with
  | [] => None
  | (k', v) :: m' => if (k' =? k)%string then Some v else dict_get k m'
  end.

(** [needle in s] on two strings. *)
Fixpoint substring_of (needle s : string) : bool :=
  String.prefix needle s ||
  match s with
  | EmptyString => false
  | String _ s' => substring_of needle s'
  end.

Definition is_str (k : string) (v : json) : bool :=
  match v with
  | JStr s => (s =? k)%string
  | _ => false
  end.

(** [k in v], for a string [k]. *)
Definition contains (k : string) (v : json) : outcome bool :=
  match v with
  | JObj m => Return (match dict_get k m with Some _ => true | None => false end)
  | JArr l => Return (existsb (is_str k) l)
  | JStr s => Return (substring_of k s)
  | JNull | JBool _ | JInt _ | JFloat _ => Raise TypeError
  end.

(** [v[k]], for a string [k]. *)
Definition getitem (v : json) (k : string) : outcome json :=
  match v with
  | JObj m => match dict_get k m with
              | Some x => Return x
              | None => Raise KeyError
              end
  | _ => Raise TypeError
  end.

(** [v.get(k, default)]: only a dict has the method. *)
Definition get (v : json) (k : string) (default : json) : outcome json :=
  match v with
  | JObj m => Return (match dict_get k m with
                      | Some x => x
                      | None => default
                      end)
  | _ => Raise AttributeError
  end.

(** [range(lo, hi)] *)
Definition range (lo hi : Z) : list Z :=
  map (fun i => lo + Z.of_nat i) (seq 0 (Z.to_nat (hi - lo))).

(** [range(1, v + 1)]: [v] must be an [int] ([bool] is a subclass of
    [int]); a [float] passes [+] and is refused by [range]. *)
Definition range_1_to (v : json) : outcome (list Z) :=
  match v with
  | JInt n => Return (range 1 (n + 1))
  | JBool b => Return (range 1 ((if b then 1 else 0) + 1))
  | _ => Raise TypeError
  end.

Fixpoint chars (s : string) : list json :=
  match s with
  | EmptyString => []
  | String c s' => JStr (String c EmptyString) :: chars s'
  end.

(** [acc.extend(v)]: [v] is iterated; a string yields its characters, a
    dict its keys. *)
Definition extend (acc : list json) (v : json) : outcome (list json) :=
  match v with
  | JArr l => Return (acc ++ l)
  | JStr s => Return (acc ++ chars s)
  | JObj m => Return (acc ++ map (fun kv => JStr (fst kv)) m)
  | JNull | JBool _ | JInt _ | JFloat _ => Raise TypeError
  end.

(** [str(n)] of an [int], as an f-string renders it. *)
Definition str_int (n : Z) : string := NilZero.string_of_int (Z.to_int n).

Definition lower_ascii (c : ascii) : ascii :=
  let n := nat_of_ascii c in
  if (Nat.leb 65 n && Nat.leb n 90)%bool then ascii_of_nat (n + 32) else c.

(** [s.lower()], on the ASCII letters. *)
Fixpoint lower (s : string) : string :=
  match s with
  | EmptyString => EmptyString
  | String c s' => String (lower_ascii c) (lower s')
  end.

End Py.

(** ** The [requests] session *)

Module Requests.

(** [urllib3.util.Retry]: the two parameters the scraper sets.  [total]
    is [None] when the number of retries is not bounded. *)
Record Retry : Type := mkRetry {
  total : option Z;
  status_forcelist : list Z
}.

Record HTTPAdapter : Type := mkHTTPAdapter {
  max_retries : Retry
}.

(** [HTTPAdapter()] retries nothing. *)
Definition default_adapter : HTTPAdapter :=
  mkHTTPAdapter (mkRetry (Some 0) []).

(** [Session.adapters], an ordered dict from URL prefix to adapter. *)
Definition Session : Type := list (string * HTTPAdapter).

Fixpoint assign (prefix : string) (a : HTTPAdapter) (s : Session) : Session :=
  match s with
  | [] => [(prefix, a)]
  | (p, b) :: s' =>
      if (p =? prefix)%string then (p, a) :: s' else (p, b) :: assign prefix a s'
  end.

Definition shorter (prefix : string) (pa : string * HTTPAdapter) : bool :=
  Nat.ltb (String.length (fst pa)) (String.length prefix).

(** [session.mount(prefix, adapter)]: the adapter is stored under the
    prefix and the shorter prefixes are moved behind it. *)
Definition mount (prefix : string) (a : HTTPAdapter) (s : Session) : Session :=
  let s' := assign prefix a s in
  filter (fun pa => negb (shorter prefix pa)) s' ++ filter (shorter prefix) s'.

(** [requests.Session()] *)
Definition new_session : Session :=
  mount "http://" default_adapter (mount "https://" default_adapter []).

(** [session.get_adapter(url)]: the first prefix that the lower-cased
    URL starts with; [None] is [InvalidSchema]. *)
Fixpoint get_adapter (s : Session) (url : string) : option HTTPAdapter :=
  match s with
  | [] => None
  | (p, a) :: s' =>
      if String.prefix (Py.lower p) (Py.lower url) then Some a
      else get_adapter s' url
  end.

Record request : Type := mkRequest {
  url : string;
  headers : list (string * string)
}.

(** A response: its status, its body as text, and what [.json()]
    returns or raises. *)
Record response : Type := mkResponse {
  status_code : Z;
  text : string;
  json_body : outcome json
}.

End Requests.

(** ** The logger *)

Inductive level : Type := INFO | WARNING | ERROR.

Inductive log_arg : Type :=
| ArgInt (n : Z)
| ArgStr (s : string)
| ArgJson (v : json)
| ArgExn (e : exn).

(** One call of [logger.info], [logger.warning] or [logger.error]: the
    message and the arguments it is to be formatted with. *)
Record log_record : Type := mkLog {
  log_level : level;
  log_message : string;
  log_args : list log_arg
}.

(** ** The scraper object and the world around it *)

Record ReclameAquiScraper : Type := mkScraper {
  page : Z;
  results_per_page : Z;
  keyword : string;
  type_rank : string;
  http : Requests.Session;
  content : json
}.

Record machine : Type := mkMachine {
  self : ReclameAquiScraper;
  sent : list Requests.request;
  logged : list log_record
}.

(** A computation on the machine: it returns or raises, and in both cases
    leaves a machine behind. *)
Definition M (A : Type) : Type := machine -> outcome A * machine.

Definition ret {A} (a : A) : M A := fun st => (Return a, st).

Definition raise {A} (e : exn) : M A := fun st => (Raise e, st).

Definition bind {A B} (c : M A) (k : A -> M B) : M B :=
  fun st =>
    match c st with
    | (Return a, st') => k a st'
    | (Raise e, st') => (Raise e, st')
    end.

Definition lift {A} (o : outcome A) : M A := fun st => (o, st).

(** [try: body / except requests.RequestException as e: handler] *)
Definition try_except_RequestException {A} (body : M A) (handler : exn -> M A) : M A :=
  fun st =>
    match body st with
    | (Return a, st') => (Return a, st')
    | (Raise e, st') =>
        if is_RequestException e then handler e st' else (Raise e, st')
    end.

Declare Scope py_scope.
Delimit Scope py_scope with py.
Notation "x <- c ;; k" := (bind c (fun x => k))
  (at level 100, c at next level, right associativity) : py_scope.
Notation "c ;; k" := (bind c (fun _ => k))
  (at level 100, right associativity) : py_scope.
Local Open Scope py_scope.

Definition get_self : M ReclameAquiScraper := fun st => (Return (self st), st).

Definition put_self (s : ReclameAquiScraper) : M unit :=
  fun st => (Return tt, mkMachine s (sent st) (logged st)).

Definition with_page (p : Z) (s : ReclameAquiScraper) : ReclameAquiScraper :=
  mkScraper p (results_per_page s) (keyword s) (type_rank s) (http s) (content s).

Definition with_keyword (k : string) (s : ReclameAquiScraper) : ReclameAquiScraper :=
  mkScraper (page s) (results_per_page s) k (type_rank s) (http s) (content s).

Definition with_content (c : json) (s : ReclameAquiScraper) : ReclameAquiScraper :=
  mkScraper (page s) (results_per_page s) (keyword s) (type_rank s) (http s) c.

(** [self.page = p], [self.keyword = k], [self.content = c] *)
Definition set_page (p : Z) : M unit :=
  s <- get_self ;; put_self (with_page p s).

Definition set_keyword (k : string) : M unit :=
  s <- get_self ;; put_self (with_keyword k s).

Definition set_content (c : json) : M unit :=
  s <- get_self ;; put_self (with_content c s).

Definition logger (l : level) (message : string) (args : list log_arg) : M unit :=
  fun st => (Return tt, mkMachine (self st) (sent st) (logged st ++ [mkLog l message args])).

(** ** The methods of [ReclameAquiScraper] *)

(** What one call of [self.http.get] does: it returns a response or
    raises. *)
Inductive get_result : Type :=
| Responded (r : Requests.response)
| GetRaised (e : exn).

(** The network and the transport layer under the session: what the call
    of [http.get] that follows [n] earlier calls yields for a request. *)
Definition transport : Type := nat -> Requests.request -> get_result.

Definition user_agent : string :=
  "Mozilla/5.0 (Windows NT 10.0; Win64; x64) AppleWebKit/537.36 (KHTML, like Gecko) Chrome/126.0.0.0 Safari/537.36".

Module Scraper.

(** [_configure_session] *)
Definition _configure_session : Requests.Session :=
  let retry_strategy :=
    Requests.mkRetry (Some 3) [403; 429; 500; 502; 503; 504] in
  let adapter := Requests.mkHTTPAdapter retry_strategy in
  let session := Requests.new_session in
  let session := Requests.mount "https://" adapter session in
  let session := Requests.mount "http://" adapter session in
  session.

(** [__init__] *)
Definition __init__ : ReclameAquiScraper :=
  {| page := 1;
     results_per_page := 50;
     keyword := "";
     type_rank := "best";
     http := _configure_session;
     content := JNull |}.

(** The f-string of [search_companies]. *)
Definition url_of (s : ReclameAquiScraper) : string :=
  ("https://iosearch.reclameaqui.com.br/raichu-io-site-search-v1/segments/ranking/"
     ++ type_rank s ++ "/" ++ keyword s ++ "/" ++ Py.str_int (page s)
     ++ "/" ++ Py.str_int (results_per_page s))%string.

Definition headers_of : list (string * string) :=
  [("User-Agent", user_agent); ("Accept", "application/json")].

Section WithTransport.

Variable net : transport.

(** [self.http.get(url, headers=headers)]: the request joins the trace
    and the transport answers it. *)
Definition http_get (url : string) (headers : list (string * string))
  : M Requests.response :=
  fun st =>
    let request := Requests.mkRequest url headers in
    let st' := mkMachine (self st) (sent st ++ [request]) (logged st) in
    match net (length (sent st)) request with
    | Responded r => (Return r, st')
    | GetRaised e => (Raise e, st')
    end.

(** [search_companies]: a function that ends without [return] returns
    [None]. *)
Definition search_companies : M json :=
  s <- get_self ;;
  let url := url_of s in
  let headers := headers_of in
  try_except_RequestException
    (response <- http_get url headers ;;
     if Requests.status_code response =? 200 then
       j <- lift (Requests.json_body response) ;;
       set_content j ;;
       logger INFO "Busca na página {} bem-sucedida" [ArgInt (page s)] ;;
       s' <- get_self ;;
       ret (content s')
     else
       logger ERROR "Falha na requisição com código de status {}"
              [ArgInt (Requests.status_code response)] ;;
       logger ERROR (Requests.text response) [] ;;
       ret JNull)
    (fun e =>
       logger ERROR "Falha na requisição: {}" [ArgExn e] ;;
       ret JNull).

(** [get_companies_data] *)
Definition get_companies_data : M json :=
  s <- get_self ;;
  if Py.truthy (content s) then
    companies <- lift (Py.get (content s) "companies" (JArr [])) ;;
    logger INFO "Dados das empresas extraídos com sucesso" [] ;;
    ret companies
  else
    logger WARNING "Nenhum conteúdo disponível para extração" [] ;;
    ret (JArr []).

(** [get_total_pages]: [self.content and "pagination" in self.content]
    evaluates [in] only on a truthy content. *)
Definition get_total_pages : M json :=
  s <- get_self ;;
  has_pagination <-
    (if Py.truthy (content s) then lift (Py.contains "pagination" (content s))
     else ret false) ;;
  if has_pagination then
    pagination <- lift (Py.getitem (content s) "pagination") ;;
    total_pages <- lift (Py.get pagination "pages" (JInt 1)) ;;
    logger INFO "Número total de páginas: {}" [ArgJson total_pages] ;;
    ret total_pages
  else
    logger WARNING "Nenhuma informação de paginação encontrada" [] ;;
    ret (JInt 1).

(** The [for] loop of [paginated_search] over the pages still to visit,
    [all_companies] being the list built so far. *)
Fixpoint for_page_in (pages : list Z) (all_companies : list json)
  : M (list json) :=
  match pages with
  | [] => ret all_companies
  | page :: pages' =>
      set_page page ;;
      search_companies ;;
      companies <- get_companies_data ;;
      all_companies <- lift (Py.extend all_companies companies) ;;
      for_page_in pages' all_companies
  end.

(** [paginated_search] *)
Definition paginated_search : M (list json) :=
  let all_companies := [] in
  search_companies ;;
  total_pages <- get_total_pages ;;
  pages <- lift (Py.range_1_to total_pages) ;;
  all_companies <- for_page_in pages all_companies ;;
  logger INFO "Busca paginada concluída. Total de empresas encontradas: {}"
         [ArgInt (Z.of_nat (length all_companies))] ;;
  ret all_companies.

(** [start] *)
Definition start (keyword : string) : M (list json) :=
  logger INFO "Iniciando busca para a palavra-chave: {}" [ArgStr keyword] ;;
  set_keyword keyword ;;
  paginated_search.

End WithTransport.

(** A scraper just constructed, nothing sent and nothing logged yet. *)
Definition fresh : machine := mkMachine __init__ [] [].

End Scraper.

(** ** Vocabulary of the specification *)

(** The URL template of the endpoint,
    [{base}/segments/ranking/{rankKind}/{keyword}/{page}/{pageSize}]. *)
Definition query_url (base rankKind keyword : string) (page pageSize : Z) : string :=
  (base ++ "/segments/ranking/" ++ rankKind ++ "/" ++ keyword ++ "/"
     ++ Py.str_int page ++ "/" ++ Py.str_int pageSize)%string.

Definition base_url : string :=
  "https://iosearch.reclameaqui.com.br/raichu-io-site-search-v1".

(** The request that [search_companies] sends for a query state. *)
Definition request_of (s : ReclameAquiScraper) : Requests.request :=
  Requests.mkRequest (Scraper.url_of s) Scraper.headers_of.

(** The request of scraper [s] once its page is set to [p]. *)
Definition request_at (s : ReclameAquiScraper) (p : Z) : Requests.request :=
  Requests.mkRequest
    (query_url base_url (type_rank s) (keyword s) p (results_per_page s))
    Scraper.headers_of.

(** The request of a scraper as [__init__] leaves it, for a keyword and a
    page. *)
Definition search_request (keyword : string) (p : Z) : Requests.request :=
  Requests.mkRequest (query_url base_url "best" keyword p 50)
    [("User-Agent", user_agent); ("Accept", "application/json")].

(** A fetch succeeds with envelope [j]: status 200 and a body that
    decodes to [j]. *)
Definition succeeded (o : get_result) : option json :=
  match o with
  | Responded r =>
      if Requests.status_code r =? 200 then
        match Requests.json_body r with
        | Return j => Some j
        | Raise _ => None
        end
      else None
  | GetRaised _ => None
  end.

(** A fetch fails: a status other than 200, or a [RequestException]
    raised by the transport or by the decoding of the body. *)
Definition failed (o : get_result) : bool :=
  match o with
  | Responded r =>
      if Requests.status_code r =? 200 then
        match Requests.json_body r with
        | Return _ => false
        | Raise e => is_RequestException e
        end
      else true
  | GetRaised e => is_RequestException e
  end.

(** The ResponseEnvelope of the data model: an object whose [companies],
    when present, is a list, and whose [pagination], when present, is an
    object whose [pages], when present, is an integer. *)
Definition envelope (j : json) : bool :=
  match j with
  | JObj m =>
      match Py.dict_get "companies" m with
      | None | Some (JArr _) => true
      | Some _ => false
      end &&
      match Py.dict_get "pagination" m with
      | None => true
      | Some (JObj p) =>
          match Py.dict_get "pages" p with
          | None | Some (JInt _) => true
          | Some _ => false
          end
      | Some _ => false
      end
  | _ => false
  end.

(** The [companies] array of an envelope, empty when absent. *)
Definition companies_of (j : json) : list json :=
  match j with
  | JObj m =>
      match Py.dict_get "companies" m with
      | Some (JArr l) => l
      | _ => []
      end
  | _ => []
  end.

(** [pagination.pages] of an envelope, 1 when absent. *)
Definition pages_of (j : json) : Z :=
  match j with
  | JObj m =>
      match Py.dict_get "pagination" m with
      | Some (JObj p) =>
          match Py.dict_get "pages" p with
          | Some (JInt n) => n
          | _ => 1
          end
      | _ => 1
      end
  | _ => 1
  end.

(** A fetch the driver goes through without raising: it fails, or it
    succeeds with an envelope. *)
Definition benign (o : get_result) : bool :=
  failed o ||
  match succeeded o with
  | Some j => envelope j
  | None => false
  end.

(** A transport that answers the successive calls from a script, and
    with [otherwise] once the script is used up. *)
Definition scripted (answers : list get_result) (otherwise : get_result)
  : transport :=
  fun n _ => nth n answers otherwise.

Definition ok (j : json) : get_result :=
  Responded (Requests.mkResponse 200 "" (Return j)).

(** An answer with an error status and a body that is not JSON. *)
Definition http_error (code : Z) (body : string) : get_result :=
  Responded (Requests.mkResponse code body (Raise (ValueError "no JSON"))).

Definition page_of (companies : list json) (pages : Z) : json :=
  JObj [("companies", JArr companies);
        ("pagination", JObj [("pages", JInt pages)])].

Definition company (name : string) : json := JObj [("companyName", JStr name)].

(** The content on which extraction goes through: an envelope, or
    [None]. *)
Definition extractable (j : json) : bool :=
  envelope j || match j with JNull => true | _ => false end.

(** The envelope stored once a fetch is over: the new one when the fetch
    succeeded, the one stored before when it failed. *)
Definition stored (o : get_result) (c : json) : json :=
  match succeeded o with
  | Some j => j
  | None => c
  end.

(** What the loop of [paginated_search] gathers when no iteration
    raises: the envelope of page [p] is the one just fetched when the fetch
    succeeds and the one left by the previous fetch when it fails.
    [request p] is the request for page [p], the [n]-th call of the
    transport is the next one, and [c] is the envelope stored. *)
Section Harvest.

Variable net : transport.
Variable request : Z -> Requests.request.

Fixpoint harvest (n : nat) (c : json) (pages : list Z) : list json :=
  match pages with
  | [] => []
  | p :: pages' =>
      let c' := stored (net n (request p)) c in
      companies_of c' ++ harvest (S n) c' pages'
  end.

End Harvest.

(** The envelope the probe of [paginated_search] leaves behind. *)
Definition probed (net : transport) (st : machine) : json :=
  stored (net (length (sent st)) (request_of (self st))) (content (self st)).

(** ** The transport of the session *)

(** What [urllib3] does with the retry policy of the adapter when
    [requests] sends a GET through it, as far as the two parameters that
    the scraper sets decide it; the other parameters of [Retry] are at
    their defaults ([respect_retry_after_header] and [raise_on_status]
    true, no separate count for connection, read or status errors, GET an
    allowed method).  Answers that redirect and the pauses between
    attempts are left out. *)
Module Urllib3.











End Urllib3.

(** ** Scenarios *)

Definition acme : json := company "Acme".
Definition bravo : json := company "Bravo".
Definition corvo : json := company "Corvo".

(** The search reports two pages; page 1 holds two companies and page 2
    one. *)
Definition net_banks : transport :=
  scripted [ok (page_of [acme; bravo] 2);
            ok (page_of [acme; bravo] 2);
            ok (page_of [corvo] 2)]
    (http_error 404 "Not Found").

(** The search reports two pages; page 1 holds one company and the fetch
    of page 2 fails with status 500. *)
Definition net_second_page_down : transport :=
  scripted [ok (page_of [acme] 2); ok (page_of [acme] 2)]
    (http_error 500 "Internal Server Error").

(** Every answer reports zero pages. *)
Definition net_zero_pages : transport :=
  scripted [] (ok (page_of [acme] 0)).

(** Every answer has status 500. *)
Definition net_500 : transport :=
  scripted [] (http_error 500 "Internal Server Error").

(** The retry policy and the adapter that [_configure_session] builds. *)
Definition retry_strategy : Requests.Retry :=
  Requests.mkRetry (Some 3) [403; 429; 500; 502; 503; 504].

Definition adapter : Requests.HTTPAdapter := Requests.mkHTTPAdapter retry_strategy.

(** A field of a stored content, when the content is an object. *)
Definition field (k : string) (c : json) : option json :=
  match c with
  | JObj m => Py.dict_get k m
  | _ => None
  end.

(** The stored contents of the data model, as far as extraction reads
    them: [None], or an object whose [pagination], when present, is an
    object. *)
Definition object_or_none (c : json) : bool :=
  match c with
  | JNull => true
  | JObj m =>
      match Py.dict_get "pagination" m with
      | None | Some (JObj _) => true
      | Some _ => false
      end
  | _ => false
  end.

(** ** More scenarios *)

(** Every call of the transport times out. *)
Definition net_timeout : transport :=
  scripted [] (GetRaised (RequestException "Read timed out.")).

(** Every answer has status 200 and a body that is not JSON, on a
    version of [requests] whose decoding error is a plain [ValueError]. *)
Definition net_not_json : transport :=
  scripted []
    (Responded (Requests.mkResponse 200 "<html></html>"
                  (Raise (ValueError "Expecting value")))).

(** Every answer is an envelope whose page count is the string "3". *)
Definition net_pages_as_string : transport :=
  scripted []
    (ok (JObj [("companies", JArr [acme]);
               ("pagination", JObj [("pages", JStr "3")])])).

(** Every answer is an envelope of one page whose [companies] is
    [null]. *)
Definition net_companies_null : transport :=
  scripted []
    (ok (JObj [("companies", JNull);
               ("pagination", JObj [("pages", JInt 1)])])).


(** Every answer has status 404, which the session does not retry. *)
Definition net_404 : transport :=
  scripted [] (http_error 404 "Not Found").

(** The search reports one page, which holds one company. *)
Definition net_one_page : transport :=
  scripted [ok (page_of [acme] 1); ok (page_of [acme] 1)]
    (http_error 404 "Not Found").

(** The search reports three pages, and the answer for page 1 in the loop
    has [null] for [companies]. *)
Definition net_null_on_first_page : transport :=
  scripted [ok (page_of [acme] 3);
            ok (JObj [("companies", JNull);
                      ("pagination", JObj [("pages", JInt 3)])])]
    (ok (page_of [acme] 3)).



(** ** The script *)

(** The link that the comment at the head of the module gives for
    testing. *)
Definition link_test : string :=
  "https://iosearch.reclameaqui.com.br/raichu-io-site-search-v1/segments/ranking/best/bancos-tradicionais-e-digitais/1/50".

(** What the script leaves: what its last statement returns or raises, the
    machine, and the objects handed to [print]. *)
Record process : Type := mkProcess {
  exit : outcome unit;
  final : machine;
  printed : list (list json)
}.

(** The block under [if __name__ == "__main__"]: the last call of the
    logger has no argument for the braces of its message. *)
Definition main (net : transport) : process :=
  let keyword := "bancos-tradicionais-e-digitais" in
  match Scraper.start net keyword Scraper.fresh with
  | (Return data, st) =>
      let (o, st') := logger INFO "Dados coletados: {}" [] st in
      mkProcess o st' [data]
  | (Raise e, st) => mkProcess (Raise e) st []
  end.

(** * Properties *)

(** ** One fetch *)

Lemma url_of_query_url (s : ReclameAquiScraper) :
  Scraper.url_of s =
  query_url base_url (type_rank s) (keyword s) (page s) (results_per_page s).
Proof. reflexivity. Qed.

Lemma request_of_with_page (s : ReclameAquiScraper) (p : Z) :
  request_of (with_page p s) = request_at s p.
Proof. reflexivity. Qed.

Lemma request_of_init (k : string) (p : Z) :
  request_at (with_keyword k Scraper.__init__) p = search_request k p.
Proof. reflexivity. Qed.

Ltac run :=
  unfold Scraper.search_companies, Scraper.get_companies_data,
    Scraper.get_total_pages, Scraper.http_get, try_except_RequestException,
    set_content, set_page, set_keyword, bind, ret, lift, logger, get_self,
    put_self;
  cbn [self sent logged fst snd].

Lemma succeeded_not_failed (o : get_result) (j : json) :
  succeeded o = Some j -> failed o = false.
Proof.
  unfold succeeded, failed. destruct o as [ r | e ]; [ | discriminate ].
  destruct (Requests.status_code r =? 200); [ | discriminate ].
  destruct (Requests.json_body r); [ reflexivity | discriminate ].
Qed.

(** A benign fetch keeps the stored content extractable. *)
Lemma stored_extractable (o : get_result) (c : json) :
  benign o = true -> extractable c = true -> extractable (stored o c) = true.
Proof.
  unfold benign, stored. intros Hb Hc.
  destruct (succeeded o) as [ j | ] eqn:Hs; [ | exact Hc ].
  rewrite (succeeded_not_failed o j Hs) in Hb. cbn in Hb.
  unfold extractable. rewrite Hb. reflexivity.
Qed.

Section OneFetch.

Variable net : transport.

Lemma search_companies_succeeded (st : machine) (j : json) :
  succeeded (net (length (sent st)) (request_of (self st))) = Some j ->
  Scraper.search_companies net st =
  (Return j,
   mkMachine (with_content j (self st))
     (sent st ++ [request_of (self st)])
     (logged st ++
        [mkLog INFO "Busca na página {} bem-sucedida" [ArgInt (page (self st))]])).
Proof.
  unfold succeeded, request_of. run. intros H.
  destruct (net _ _) as [r | e]; [ | discriminate ].
  cbn [self sent logged].
  destruct (Requests.status_code r =? 200); [ | discriminate ].
  destruct (Requests.json_body r) as [j' | e]; [ | discriminate ].
  injection H as ->. reflexivity.
Qed.

Lemma search_companies_failed (st : machine) :
  failed (net (length (sent st)) (request_of (self st))) = true ->
  exists lg,
    Scraper.search_companies net st =
    (Return JNull,
     mkMachine (self st) (sent st ++ [request_of (self st)]) (logged st ++ lg)).
Proof.
  unfold failed, request_of. run. intros H.
  destruct (net _ _) as [r | e]; cbn [self sent logged].
  - destruct (Requests.status_code r =? 200).
    + destruct (Requests.json_body r) as [j' | e]; [ discriminate | ].
      cbn [self sent logged]. rewrite H. eexists. reflexivity.
    + cbn [self sent logged]. rewrite <- app_assoc. eexists. reflexivity.
  - rewrite H. eexists. reflexivity.
Qed.

(** Whatever the transport answers, one call of [search_companies] sends
    exactly one request, the one of the current query state, and changes
    no attribute but [content]. *)
Lemma search_companies_always (st : machine) :
  exists o c lg,
    Scraper.search_companies net st =
    (o, mkMachine (with_content c (self st))
          (sent st ++ [request_of (self st)]) (logged st ++ lg)).
Proof.
  unfold request_of. run.
  destruct st as [[pg rpp kw tr h c] snt lg]. cbn [self sent logged].
  destruct (net _ _) as [r | e]; cbn [self sent logged].
  - destruct (Requests.status_code r =? 200).
    + destruct (Requests.json_body r) as [j' | e]; cbn [self sent logged].
      * do 3 eexists. reflexivity.
      * destruct (is_RequestException e).
        -- exists (Return JNull), c. eexists. reflexivity.
        -- exists (Raise e), c, []. rewrite app_nil_r. reflexivity.
    + cbn [self sent logged]. exists (Return JNull), c. eexists.
      rewrite <- app_assoc. reflexivity.
  - destruct (is_RequestException e).
    + exists (Return JNull), c. eexists. reflexivity.
    + exists (Raise e), c, []. rewrite app_nil_r. reflexivity.
Qed.

(** A benign fetch returns, and stores what [stored] says. *)
Lemma search_companies_benign (st : machine) :
  benign (net (length (sent st)) (request_of (self st))) = true ->
  exists r lg,
    Scraper.search_companies net st =
    (Return r,
     mkMachine
       (with_content
          (stored (net (length (sent st)) (request_of (self st)))
             (content (self st)))
          (self st))
       (sent st ++ [request_of (self st)]) (logged st ++ lg)).
Proof.
  intros H0. unfold benign in H0. unfold stored.
  destruct (succeeded (net (length (sent st)) (request_of (self st))))
    as [ j | ] eqn:Hs.
  - exists j. eexists. apply search_companies_succeeded. exact Hs.
  - rewrite orb_false_r in H0.
    destruct (search_companies_failed st H0) as [lg1 E].
    exists JNull, lg1.
    rewrite E. destruct st as [[pg rpp kw tr h c] snt lg]. reflexivity.
Qed.

End OneFetch.

(** ** Extraction *)

Lemma get_companies_data_extractable (st : machine) :
  extractable (content (self st)) = true ->
  exists lg,
    Scraper.get_companies_data st =
    (Return (JArr (companies_of (content (self st)))),
     mkMachine (self st) (sent st) (logged st ++ lg)).
Proof.
  unfold extractable, envelope, companies_of. run.
  destruct (content (self st)) as [ | b | n | f | s | l | m ];
    cbn; try discriminate; intros H.
  - eexists. reflexivity.
  - destruct m as [ | kv m ]; cbn [Py.truthy].
    + eexists. reflexivity.
    + cbn [Py.get]. destruct (Py.dict_get "companies" (kv :: m)) as [ [ | | | | | l | ] | ];
        try discriminate; eexists; reflexivity.
Qed.

Lemma get_total_pages_extractable (st : machine) :
  extractable (content (self st)) = true ->
  exists lg,
    Scraper.get_total_pages st =
    (Return (JInt (pages_of (content (self st)))),
     mkMachine (self st) (sent st) (logged st ++ lg)).
Proof.
  unfold extractable, envelope, pages_of. run.
  destruct (content (self st)) as [ | b | n | f | s | l | m ];
    cbn; try discriminate; intros H.
  - eexists. reflexivity.
  - destruct m as [ | kv m ]; cbn [Py.truthy].
    + eexists. reflexivity.
    + cbn [Py.contains Py.getitem].
      destruct (Py.dict_get "companies" (kv :: m)) as [ [ | | | | | l | ] | ];
        try discriminate; cbn [andb] in H.
      all: destruct (Py.dict_get "pagination" (kv :: m)) as [ [ | | | | | | pg ] | ];
        try discriminate; cbn [Py.get self sent logged].
      all: try (eexists; reflexivity).
      all: destruct (Py.dict_get "pages" pg) as [ [ | | n | | | | ] | ];
        try discriminate; eexists; reflexivity.
Qed.

Lemma last_cons_default {A} (x d : A) (l : list A) :
  last (x :: l) d = last l x.
Proof.
  revert x d. induction l as [ | y l IH ]; intros x d; [ reflexivity | ].
  change (last (x :: y :: l) d) with (last (y :: l) d).
  rewrite (IH y d), (IH y x). reflexivity.
Qed.

(** ** The loop *)

Section Loop.

Variable net : transport.

(** Under a benign transport the loop runs to its end: it sends one
    request per page, in order, leaves the page attribute at the last
    page, and returns what [harvest] describes. *)
Lemma for_page_in_benign (pages : list Z) :
  forall (acc : list json) (st : machine),
    extractable (content (self st)) = true ->
    (forall k p, nth_error pages k = Some p ->
       benign (net (length (sent st) + k)%nat (request_at (self st) p)) = true) ->
    exists c lg,
      Scraper.for_page_in net pages acc st =
      (Return (acc ++ harvest net (request_at (self st)) (length (sent st))
                        (content (self st)) pages),
       mkMachine
         (with_content c (with_page (last pages (page (self st))) (self st)))
         (sent st ++ map (request_at (self st)) pages)
         (logged st ++ lg))
      /\ extractable c = true.
Proof.
  induction pages as [ | p pages IH ]; intros acc st Hc Hnet.
  - exists (content (self st)), []. split; [ | exact Hc ].
    destruct st as [[pg rpp kw tr h c] snt lg]. cbn.
    rewrite !app_nil_r. reflexivity.
  - pose proof (Hnet 0%nat p eq_refl) as H0. rewrite Nat.add_0_r in H0.
    cbn [Scraper.for_page_in harvest].
    set (st1 := mkMachine (with_page p (self st)) (sent st) (logged st)).
    destruct (search_companies_benign net st1 H0) as (c1 & lg1 & E1).
    pose proof (stored_extractable _ _ H0 Hc) as Hc1.
    cbn [st1 self sent logged] in E1.
    change (request_of (with_page p (self st))) with (request_at (self st) p)
      in E1.
    change (content (with_page p (self st))) with (content (self st))
      in E1.
    set (c' := stored (net (length (sent st)) (request_at (self st) p))
                 (content (self st))) in *.
    set (st2 := mkMachine (with_content c' (with_page p (self st)))
                  (sent st ++ [request_at (self st) p]) (logged st ++ lg1)) in *.
    destruct (get_companies_data_extractable st2 Hc1) as [lg2 E2].
    set (st3 := mkMachine (self st2) (sent st2) (logged st2 ++ lg2)) in *.
    destruct (IH (acc ++ companies_of c') st3 Hc1) as (c & lg & E3 & Hc3).
    { intros k q Hk. cbn [st3 st2 self sent].
      rewrite length_app. cbn [length].
      replace (length (sent st) + 1 + k)%nat with (length (sent st) + S k)%nat by lia.
      apply (Hnet (S k) q). exact Hk. }
    exists c, (lg1 ++ lg2 ++ lg). split; [ | exact Hc3 ].
    unfold bind at 1. change (set_page p st) with (Return tt, st1).
    unfold bind at 1. rewrite E1.
    unfold bind at 1. rewrite E2.
    unfold bind at 1. cbn [lift Py.extend self].
    change (content (self st2)) with c'.
    rewrite E3. subst st3 st2.
    cbn [self sent logged content page with_content with_page].
    rewrite length_app. cbn [length].
    rewrite Nat.add_1_r, last_cons_default.
    rewrite <- !app_assoc. reflexivity.
Qed.

End Loop.

(** ** [range(1, n + 1)] *)

Lemma range_1_nth (n : Z) (k : nat) (p : Z) :
  nth_error (Py.range 1 (n + 1)) k = Some p ->
  p = 1 + Z.of_nat k /\ 1 <= p <= n.
Proof.
  unfold Py.range. rewrite nth_error_map, nth_error_seq.
  destruct (Nat.ltb_spec k (Z.to_nat (n + 1 - 1))) as [Hk | Hk];
    cbn [option_map Nat.add]; [ | discriminate ].
  intros E. assert (p = 1 + Z.of_nat k) as -> by congruence. lia.
Qed.

Lemma range_1_length (n : Z) :
  length (Py.range 1 (n + 1)) = Z.to_nat n.
Proof.
  unfold Py.range. rewrite length_map, length_seq. f_equal. lia.
Qed.

Lemma range_1_nonpos (n : Z) :
  n <= 0 -> Py.range 1 (n + 1) = [].
Proof.
  intros Hn. unfold Py.range.
  replace (Z.to_nat (n + 1 - 1)) with 0%nat by lia. reflexivity.
Qed.

Lemma range_1_last (n d : Z) :
  1 <= n -> last (Py.range 1 (n + 1)) d = n.
Proof.
  intros Hn. unfold Py.range.
  replace (Z.to_nat (n + 1 - 1)) with (S (Z.to_nat (n - 1))) by lia.
  rewrite seq_S, map_app. cbn [map]. rewrite last_last. lia.
Qed.

(** ** The whole search *)

Section Search.

Variable net : transport.

(** When the probe and the fetches of the loop are benign, the search
    returns: it has sent the probe at the current page and then one
    request per page from 1 to the page count read from the probe's
    envelope, and it has gathered what [harvest] describes. *)
Lemma paginated_search_benign (st : machine) :
  benign (net (length (sent st)) (request_of (self st))) = true ->
  extractable (probed net st) = true ->
  (forall p, 1 <= p <= pages_of (probed net st) ->
     benign (net (length (sent st) + Z.to_nat p)%nat (request_at (self st) p))
     = true) ->
  exists c lg,
    Scraper.paginated_search net st =
    (Return (harvest net (request_at (self st)) (S (length (sent st)))
               (probed net st) (Py.range 1 (pages_of (probed net st) + 1))),
     mkMachine
       (with_content c
          (with_page (last (Py.range 1 (pages_of (probed net st) + 1))
                        (page (self st))) (self st)))
       (sent st ++ request_of (self st)
          :: map (request_at (self st)) (Py.range 1 (pages_of (probed net st) + 1)))
       (logged st ++ lg)).
Proof.
  intros Hprobe Hc1 Hloop.
  destruct (search_companies_benign net st Hprobe) as (r1 & lg1 & E1).
  fold (probed net st) in E1.
  set (st1 := mkMachine (with_content (probed net st) (self st))
                (sent st ++ [request_of (self st)]) (logged st ++ lg1)) in *.
  destruct (get_total_pages_extractable st1 Hc1) as [lg2 E2].
  change (content (self st1)) with (probed net st) in E2.
  set (st2 := mkMachine (self st1) (sent st1) (logged st1 ++ lg2)) in *.
  destruct (for_page_in_benign net (Py.range 1 (pages_of (probed net st) + 1))
              [] st2 Hc1) as (c & lg3 & E3 & _).
  { intros k p Hk. apply range_1_nth in Hk. destruct Hk as [-> Hk].
    cbn [st2 st1 self sent]. rewrite length_app. cbn [length].
    replace (length (sent st) + 1 + k)%nat
      with (length (sent st) + Z.to_nat (1 + Z.of_nat k))%nat by lia.
    apply (Hloop (1 + Z.of_nat k) Hk). }
  eexists c, _.
  unfold Scraper.paginated_search.
  unfold bind at 1. rewrite E1.
  unfold bind at 1. rewrite E2.
  unfold bind at 1. cbn [lift Py.range_1_to].
  unfold bind at 1. rewrite E3.
  unfold bind, logger, ret. subst st2 st1.
  cbn [self sent logged content page with_content with_page app].
  rewrite length_app. cbn [length]. rewrite Nat.add_1_r.
  rewrite <- !app_assoc. reflexivity.
Qed.

(** [start] is [paginated_search] on the scraper with the keyword set. *)
Lemma start_paginated_search (k : string) (st : machine) :
  Scraper.start net k st =
  Scraper.paginated_search net
    (mkMachine (with_keyword k (self st)) (sent st)
       (logged st ++
          [mkLog INFO "Iniciando busca para a palavra-chave: {}" [ArgStr k]])).
Proof. reflexivity. Qed.

End Search.

(** ** What holds whatever the transport answers *)

Lemma get_companies_data_always (st : machine) :
  exists o lg,
    Scraper.get_companies_data st =
    (o, mkMachine (self st) (sent st) (logged st ++ lg)).
Proof.
  run. destruct st as [s snt lg]. cbn [self sent logged].
  destruct (Py.truthy (content s)).
  - destruct (Py.get (content s) "companies" (JArr [])) as [ v | e ];
      cbn [self sent logged].
    + do 2 eexists. reflexivity.
    + exists (Raise e), []. rewrite app_nil_r. reflexivity.
  - do 2 eexists. reflexivity.
Qed.

Lemma get_total_pages_always (st : machine) :
  exists o lg,
    Scraper.get_total_pages st =
    (o, mkMachine (self st) (sent st) (logged st ++ lg)).
Proof.
  run. destruct st as [s snt lg]. cbn [self sent logged].
  assert (Hraise : forall A (e : exn),
             exists (o : outcome A) lg',
               (Raise e, mkMachine s snt lg) = (o, mkMachine s snt (lg ++ lg'))).
  { intros A e. exists (Raise e), []. rewrite app_nil_r. reflexivity. }
  destruct (Py.truthy (content s)).
  - destruct (Py.contains "pagination" (content s)) as [ [ | ] | e ];
      cbn [self sent logged]; [ | do 2 eexists; reflexivity | apply Hraise ].
    destruct (Py.getitem (content s) "pagination") as [ pg | e ];
      cbn [self sent logged]; [ | apply Hraise ].
    destruct (Py.get pg "pages" (JInt 1)) as [ n | e ];
      cbn [self sent logged]; [ | apply Hraise ].
    do 2 eexists. reflexivity.
  - do 2 eexists. reflexivity.
Qed.

Section Always.

Variable net : transport.

(** The loop only adds to the trace of requests. *)
Lemma for_page_in_extends (pages : list Z) :
  forall (acc : list json) (st : machine),
    exists tail,
      sent (snd (Scraper.for_page_in net pages acc st)) = sent st ++ tail.
Proof.
  induction pages as [ | p pages IH ]; intros acc st.
  - exists []. rewrite app_nil_r. reflexivity.
  - cbn [Scraper.for_page_in].
    set (st1 := mkMachine (with_page p (self st)) (sent st) (logged st)).
    unfold bind at 1. change (set_page p st) with (Return tt, st1).
    cbv beta iota.
    destruct (search_companies_always net st1) as (o1 & c1 & lg1 & E1).
    unfold bind at 1. rewrite E1.
    destruct o1 as [ r1 | e1 ]; [ | eexists; reflexivity ].
    unfold bind at 1.
    match goal with |- context [ Scraper.get_companies_data ?s ] =>
      destruct (get_companies_data_always s) as (o2 & lg2 & E2) end.
    rewrite E2. cbn [self sent logged].
    destruct o2 as [ r2 | e2 ]; [ | eexists; reflexivity ].
    unfold bind at 1, lift.
    destruct (Py.extend acc r2) as [ acc' | e3 ]; [ | eexists; reflexivity ].
    match goal with |- context [ Scraper.for_page_in net pages acc' ?s ] =>
      destruct (IH acc' s) as [tail E3] end.
    rewrite E3. cbn [sent st1]. rewrite <- app_assoc. eexists. reflexivity.
Qed.

(** The first request of [paginated_search] is the one of the query state
    it starts from: the page is not reset before the probe. *)
Lemma paginated_search_probe (st : machine) :
  exists tail,
    sent (snd (Scraper.paginated_search net st)) =
    sent st ++ request_of (self st) :: tail.
Proof.
  unfold Scraper.paginated_search.
  destruct (search_companies_always net st) as (o1 & c1 & lg1 & E1).
  unfold bind at 1. rewrite E1.
  destruct o1 as [ r1 | e1 ]; [ | exists []; reflexivity ].
  unfold bind at 1.
  match goal with |- context [ Scraper.get_total_pages ?s ] =>
    destruct (get_total_pages_always s) as (o2 & lg2 & E2) end.
  rewrite E2. cbn [self sent logged].
  destruct o2 as [ r2 | e2 ]; [ | exists []; reflexivity ].
  unfold bind at 1, lift.
  destruct (Py.range_1_to r2) as [ pages | e3 ]; [ | exists []; reflexivity ].
  unfold bind at 1.
  match goal with |- context [ Scraper.for_page_in net pages [] ?s ] =>
    destruct (for_page_in_extends pages [] s) as [tail E3];
    destruct (Scraper.for_page_in net pages [] s) as [o4 st4] eqn:E4 end.
  cbn [snd sent] in E3.
  unfold bind, logger, ret.
  destruct o4 as [ r4 | e4 ]; cbn [snd sent]; rewrite E3, <- app_assoc;
    exists tail; reflexivity.
Qed.

End Always.

(** ** What is gathered *)

Lemma harvest_all_succeeded (net : transport) (request : Z -> Requests.request)
  (env : Z -> json) (pages : list Z) :
  forall (n : nat) (c : json),
    (forall k p, nth_error pages k = Some p ->
       succeeded (net (n + k)%nat (request p)) = Some (env p)) ->
    harvest net request n c pages =
    flat_map (fun p => companies_of (env p)) pages.
Proof.
  induction pages as [ | p pages IH ]; intros n c H; [ reflexivity | ].
  cbn [harvest flat_map]. unfold stored.
  pose proof (H 0%nat p eq_refl) as H0. rewrite Nat.add_0_r in H0.
  rewrite H0. f_equal. apply IH. intros k q Hk.
  replace (S n + k)%nat with (n + S k)%nat by lia. apply (H (S k) q Hk).
Qed.

Lemma harvest_all_failed (net : transport) (request : Z -> Requests.request)
  (pages : list Z) :
  forall (n : nat) (c : json),
    (forall k p, nth_error pages k = Some p ->
       succeeded (net (n + k)%nat (request p)) = None) ->
    harvest net request n c pages =
    flat_map (fun _ => companies_of c) pages.
Proof.
  induction pages as [ | p pages IH ]; intros n c H; [ reflexivity | ].
  cbn [harvest flat_map]. unfold stored.
  pose proof (H 0%nat p eq_refl) as H0. rewrite Nat.add_0_r in H0.
  rewrite H0. f_equal. apply IH. intros k q Hk.
  replace (S n + k)%nat with (n + S k)%nat by lia. apply (H (S k) q Hk).
Qed.

(** * The claims *)

(** ** Query builder and HTTP client *)

(** C8. The request of [search_companies] is built from the query state
    alone: its URL is [{base}/segments/ranking/{rankKind}/{keyword}/{page}/{pageSize}]
    for the rank kind, keyword, page and page size of the scraper, it
    carries the fixed User-Agent header and [Accept: application/json], it
    is the one request the call sends, and the call leaves the query state
    as it was. *)
Theorem C8_request_is_function_of_query_state (net : transport) (st : machine) :
  let s := self st in
  let s' := self (snd (Scraper.search_companies net st)) in
  Scraper.url_of s =
    query_url "https://iosearch.reclameaqui.com.br/raichu-io-site-search-v1"
      (type_rank s) (keyword s) (page s) (results_per_page s)
  /\ sent (snd (Scraper.search_companies net st)) =
     sent st ++
       [Requests.mkRequest (Scraper.url_of s)
          [("User-Agent", user_agent); ("Accept", "application/json")]]
  /\ type_rank s' = type_rank s
  /\ keyword s' = keyword s
  /\ page s' = page s
  /\ results_per_page s' = results_per_page s.
Proof.
  cbv zeta.
  destruct (search_companies_always net st) as (o & c & lg & E).
  rewrite E. cbn [snd self sent].
  repeat split; reflexivity.
Qed.







(** ** The pagination driver on a scraper just constructed *)

(** A search started on a fresh scraper whose fetches are all benign: it
    returns, with the trace of requests and the result spelled out. *)
Lemma start_fresh_benign (net : transport) (k : string) :
  let c0 := stored (net 0%nat (search_request k 1)) JNull in
  let pages := Py.range 1 (pages_of c0 + 1) in
  benign (net 0%nat (search_request k 1)) = true ->
  (forall p, 1 <= p <= pages_of c0 ->
     benign (net (Z.to_nat p) (search_request k p)) = true) ->
  exists c lg,
    Scraper.start net k Scraper.fresh =
    (Return (harvest net (search_request k) 1 c0 pages),
     mkMachine
       (with_content c (with_page (last pages 1) (with_keyword k Scraper.__init__)))
       (search_request k 1 :: map (search_request k) pages)
       lg).
Proof.
  intros c0 pages Hprobe Hloop.
  rewrite start_paginated_search.
  match goal with |- context [ Scraper.paginated_search net ?s ] => set (st0 := s) end.
  assert (Hc0 : probed net st0 = c0) by reflexivity.
  destruct (paginated_search_benign net st0) as (c & lg & E).
  - exact Hprobe.
  - rewrite Hc0. apply stored_extractable; [ exact Hprobe | reflexivity ].
  - rewrite Hc0. intros p Hp. apply (Hloop p Hp).
  - rewrite Hc0 in E. exists c. eexists. exact E.
Qed.

(** C3, as the code has it.  On a fresh scraper, for every keyword and
    every page count [N >= 1] reported by the probe's envelope, provided
    that every fetch of the loop either fails or succeeds with an
    envelope, the search returns and has issued exactly [N + 1] requests:
    the probe at page 1, then pages 1 to [N] in order, so that page 1 is
    requested twice; every request has rank kind "best", the keyword, its
    page number and page size 50. *)
Theorem C3_probe_then_one_fetch_per_page
  (net : transport) (k : string) (N : Z) (j0 : json) :
  1 <= N ->
  succeeded (net 0%nat (search_request k 1)) = Some j0 ->
  envelope j0 = true ->
  pages_of j0 = N ->
  (forall p, 1 <= p <= N ->
     benign (net (Z.to_nat p) (search_request k p)) = true) ->
  let run := Scraper.start net k Scraper.fresh in
  (exists result, fst run = Return result)
  /\ sent (snd run) =
     search_request k 1 :: map (search_request k) (Py.range 1 (N + 1))
  /\ Z.of_nat (length (sent (snd run))) = N + 1
  /\ nth_error (sent (snd run)) 0 = Some (search_request k 1)
  /\ nth_error (sent (snd run)) 1 = Some (search_request k 1).
Proof.
  intros HN Hs He Hpages Hloop run.
  assert (Hc0 : stored (net 0%nat (search_request k 1)) JNull = j0)
    by (unfold stored; rewrite Hs; reflexivity).
  destruct (start_fresh_benign net k) as (c & lg & E).
  - unfold benign. rewrite Hs, He. apply orb_true_r.
  - rewrite Hc0, Hpages. exact Hloop.
  - rewrite Hc0, Hpages in E. subst run. rewrite E. cbn [fst snd sent].
    split; [ eexists; reflexivity | ]. split; [ reflexivity | ].
    split.
    + cbn [length]. rewrite length_map, range_1_length. lia.
    + split; [ reflexivity | ].
      cbn [nth_error]. unfold Py.range.
      replace (Z.to_nat (N + 1 - 1)) with (S (Z.to_nat (N - 1))) by lia.
      reflexivity.
Qed.

Lemma C3_witness :
  let run := Scraper.start net_banks "banks" Scraper.fresh in
  (exists result, fst run = Return result)
  /\ sent (snd run) =
     search_request "banks" 1
       :: map (search_request "banks") (Py.range 1 (2 + 1))
  /\ Z.of_nat (length (sent (snd run))) = 2 + 1
  /\ nth_error (sent (snd run)) 0 = Some (search_request "banks" 1)
  /\ nth_error (sent (snd run)) 1 = Some (search_request "banks" 1).
Proof.
  apply (C3_probe_then_one_fetch_per_page net_banks "banks" 2
           (page_of [acme; bravo] 2)).
  - lia.
  - reflexivity.
  - reflexivity.
  - reflexivity.
  - intros p Hp.
    assert (Hcases : p = 1 \/ p = 2) by lia.
    destruct Hcases as [-> | ->]; reflexivity.
Defined.

(** C3, as stated, fails.  The probe reports three pages and the answer
    for page 1 in the loop has [null] for [companies]: the search raises
    [TypeError] at that page after two requests, not four. *)
Lemma C3_search_stops_at_a_page_it_cannot_extend :
  let run := Scraper.start net_null_on_first_page "banks" Scraper.fresh in
  succeeded (net_null_on_first_page 0%nat (search_request "banks" 1))
    = Some (page_of [acme] 3)
  /\ pages_of (page_of [acme] 3) = 3
  /\ fst run = Raise TypeError
  /\ sent (snd run) = [search_request "banks" 1; search_request "banks" 1]
  /\ Z.of_nat (length (sent (snd run))) <> 3 + 1.
Proof.
  cbv zeta. repeat split; try reflexivity.
  vm_compute. discriminate.
Qed.

(** C2, as the code has it.  On a fresh scraper, for every integer [P]
    read from the probe's envelope, provided that every fetch of the loop
    either fails or succeeds with an envelope, the search returns and the
    loop has run for the pages 1 to [P] in order and for nothing else:
    with [P >= 1] the requests are the probe and then pages 1 to [P],
    [P + 1] in all, so that [P = 1] gives one iteration; with [P <= 0],
    the page count not being clamped, the loop does not run at all, the
    probe is the only request and the result is the empty list. *)
Theorem C2_loop_visits_pages_1_to_P
  (net : transport) (k : string) (P : Z) (j0 : json) :
  succeeded (net 0%nat (search_request k 1)) = Some j0 ->
  envelope j0 = true ->
  pages_of j0 = P ->
  (forall p, 1 <= p <= P ->
     benign (net (Z.to_nat p) (search_request k p)) = true) ->
  let run := Scraper.start net k Scraper.fresh in
  (1 <= P
   /\ (exists result, fst run = Return result)
   /\ sent (snd run) =
      search_request k 1 :: map (search_request k) (Py.range 1 (P + 1))
   /\ Z.of_nat (length (sent (snd run))) = P + 1
   /\ page (self (snd run)) = P)
  \/ (P <= 0
      /\ fst run = Return []
      /\ sent (snd run) = [search_request k 1]).
Proof.
  intros Hs He Hpages Hloop run.
  assert (Hc0 : stored (net 0%nat (search_request k 1)) JNull = j0)
    by (unfold stored; rewrite Hs; reflexivity).
  destruct (start_fresh_benign net k) as (c & lg & E).
  - unfold benign. rewrite Hs, He. apply orb_true_r.
  - rewrite Hc0, Hpages. exact Hloop.
  - rewrite Hc0, Hpages in E. subst run. rewrite E. cbn [fst snd sent self].
    destruct (Z_le_gt_dec P 0) as [Hle | Hgt].
    + right. rewrite (range_1_nonpos P Hle).
      split; [ exact Hle | ]. split; reflexivity.
    + left. split; [ lia | ]. split; [ eexists; reflexivity | ].
      split; [ reflexivity | ]. split.
      * cbn [length]. rewrite length_map, range_1_length. lia.
      * cbn [page with_content with_page]. apply range_1_last. lia.
Qed.

Lemma C2_witness :
  let run := Scraper.start net_one_page "banks" Scraper.fresh in
  (1 <= 1
   /\ (exists result, fst run = Return result)
   /\ sent (snd run) =
      search_request "banks" 1
        :: map (search_request "banks") (Py.range 1 (1 + 1))
   /\ Z.of_nat (length (sent (snd run))) = 1 + 1
   /\ page (self (snd run)) = 1)
  \/ (1 <= 0
      /\ fst run = Return []
      /\ sent (snd run) = [search_request "banks" 1]).
Proof.
  apply (C2_loop_visits_pages_1_to_P net_one_page "banks" 1 (page_of [acme] 1)).
  - reflexivity.
  - reflexivity.
  - reflexivity.
  - intros p Hp. assert (p = 1) as -> by lia. reflexivity.
Defined.

(** C2, as stated, fails: when the probe reports zero pages the loop does
    not run once at page 1; the search sends the probe and nothing else,
    and returns the empty list. *)
Lemma C2_zero_pages_is_not_clamped :
  let run := Scraper.start net_zero_pages "banks" Scraper.fresh in
  succeeded (net_zero_pages 0%nat (search_request "banks" 1))
    = Some (page_of [acme] 0)
  /\ pages_of (page_of [acme] 0) = 0
  /\ sent (snd run) = [search_request "banks" 1]
  /\ sent (snd run) <> [search_request "banks" 1; search_request "banks" 1]
  /\ fst run = Return [].
Proof.
  cbv zeta. repeat split; try reflexivity.
  intros H. apply (f_equal (@length _)) in H. vm_compute in H. discriminate H.
Qed.



(** ** The pagination driver on any scraper *)

Lemma nth_error_middle {A} (l tail : list A) (x : A) :
  nth_error (l ++ x :: tail) (length l) = Some x.
Proof.
  rewrite nth_error_app2 by lia. rewrite Nat.sub_diag. reflexivity.
Qed.

Section Driver.

Variable net : transport.

(** One iteration of the loop sends one request, whatever happens
    next. *)
Lemma for_page_in_single (p : Z) (acc : list json) (st : machine) :
  sent (snd (Scraper.for_page_in net [p] acc st)) =
  sent st ++ [request_at (self st) p].
Proof.
  cbn [Scraper.for_page_in].
  set (st1 := mkMachine (with_page p (self st)) (sent st) (logged st)).
  unfold bind at 1. change (set_page p st) with (Return tt, st1).
  cbv beta iota.
  destruct (search_companies_always net st1) as (o1 & c1 & lg1 & E1).
  unfold bind at 1. rewrite E1.
  destruct o1 as [ r1 | e1 ]; [ | reflexivity ].
  unfold bind at 1.
  match goal with |- context [ Scraper.get_companies_data ?s ] =>
    destruct (get_companies_data_always s) as (o2 & lg2 & E2) end.
  rewrite E2. cbn [self sent logged].
  destruct o2 as [ r2 | e2 ]; [ | reflexivity ].
  unfold bind at 1, lift.
  destruct (Py.extend acc r2) as [ acc' | e3 ]; reflexivity.
Qed.

(** C4. When nothing is stored yet and the probe fails, by a status
    other than 200 or by an exception of the transport, the page count
    read after the probe is the default 1 and the loop runs exactly once:
    the search sends the probe and then one request, for page 1. *)
Theorem C4_failed_probe_runs_one_page (st : machine) :
  content (self st) = JNull ->
  failed (net (length (sent st)) (request_of (self st))) = true ->
  fst (Scraper.get_total_pages (snd (Scraper.search_companies net st)))
    = Return (JInt 1)
  /\ sent (snd (Scraper.paginated_search net st)) =
     sent st ++ [request_of (self st); request_at (self st) 1].
Proof.
  intros Hc Hf.
  destruct (search_companies_failed net st Hf) as [lg1 E1].
  set (st1 := mkMachine (self st) (sent st ++ [request_of (self st)])
                (logged st ++ lg1)) in *.
  assert (Hx : extractable (content (self st1)) = true)
    by (cbn [st1 self]; rewrite Hc; reflexivity).
  destruct (get_total_pages_extractable st1 Hx) as [lg2 E2].
  cbn [st1 self] in E2. rewrite Hc in E2.
  change (pages_of JNull) with 1 in E2.
  split.
  - rewrite E1. cbn [snd]. rewrite E2. reflexivity.
  - unfold Scraper.paginated_search.
    unfold bind at 1. rewrite E1.
    unfold bind at 1. fold st1. rewrite E2.
    unfold bind at 1, lift. cbn [Py.range_1_to].
    change (Py.range 1 (1 + 1)) with [1].
    unfold bind at 1.
    match goal with |- context [ Scraper.for_page_in net [1] [] ?s ] =>
      pose proof (for_page_in_single 1 [] s) as E3;
      destruct (Scraper.for_page_in net [1] [] s) as [o4 st4] end.
    cbn [snd sent self] in E3.
    unfold bind, logger, ret. subst st1. cbn [sent] in E3.
    destruct o4 as [ r4 | e4 ]; cbn [snd sent]; rewrite E3, <- app_assoc;
      reflexivity.
Qed.

(** C6. When the probe and every fetch of the loop succeed with an
    envelope, the search returns the [companies] arrays of pages 1, 2,
    ... up to the page count, concatenated in that order, each in the
    order it was received, with no record moved or dropped. *)
Theorem C6_concatenation_in_page_order
  (st : machine) (j0 : json) (env : Z -> json) :
  succeeded (net (length (sent st)) (request_of (self st))) = Some j0 ->
  envelope j0 = true ->
  (forall p, 1 <= p <= pages_of j0 ->
     succeeded (net (length (sent st) + Z.to_nat p)%nat
                  (request_at (self st) p)) = Some (env p)
     /\ envelope (env p) = true) ->
  fst (Scraper.paginated_search net st) =
  Return (flat_map (fun p => companies_of (env p))
            (Py.range 1 (pages_of j0 + 1))).
Proof.
  intros Hs He Hloop.
  assert (Hc0 : probed net st = j0)
    by (unfold probed, stored; rewrite Hs; reflexivity).
  destruct (paginated_search_benign net st) as (c & lg & E).
  - unfold benign. rewrite Hs, He. apply orb_true_r.
  - rewrite Hc0. unfold extractable. rewrite He. reflexivity.
  - rewrite Hc0. intros p Hp. destruct (Hloop p Hp) as [Hsp Hep].
    unfold benign. rewrite Hsp, Hep. apply orb_true_r.
  - rewrite E, Hc0. cbn [fst]. f_equal.
    apply harvest_all_succeeded. intros i p Hi.
    apply range_1_nth in Hi. destruct Hi as [-> Hi].
    replace (S (length (sent st)) + i)%nat
      with (length (sent st) + Z.to_nat (1 + Z.of_nat i))%nat by lia.
    apply (Hloop (1 + Z.of_nat i) Hi).
Qed.

End Driver.

Lemma C4_witness :
  fst (Scraper.get_total_pages
         (snd (Scraper.search_companies net_500 Scraper.fresh)))
    = Return (JInt 1)
  /\ sent (snd (Scraper.paginated_search net_500 Scraper.fresh)) =
     sent Scraper.fresh ++
       [request_of (self Scraper.fresh); request_at (self Scraper.fresh) 1].
Proof.
  apply (C4_failed_probe_runs_one_page net_500 Scraper.fresh); reflexivity.
Defined.

Lemma C6_witness :
  fst (Scraper.paginated_search net_banks
         (mkMachine (with_keyword "banks" Scraper.__init__) [] [])) =
  Return (flat_map
            (fun p => companies_of
                        (if p =? 1 then page_of [acme; bravo] 2
                         else page_of [corvo] 2))
            (Py.range 1 (pages_of (page_of [acme; bravo] 2) + 1))).
Proof.
  apply (C6_concatenation_in_page_order net_banks
           (mkMachine (with_keyword "banks" Scraper.__init__) [] [])
           (page_of [acme; bravo] 2)
           (fun p => if p =? 1 then page_of [acme; bravo] 2
                     else page_of [corvo] 2)).
  - reflexivity.
  - reflexivity.
  - intros p Hp. change (pages_of (page_of [acme; bravo] 2)) with 2 in Hp.
    assert (Hcases : p = 1 \/ p = 2) by lia.
    destruct Hcases as [-> | ->]; split; reflexivity.
Defined.

(** ** The page attribute across searches *)

(** C10. [paginated_search] never resets the page: from any machine its
    first request is the one of the current query state.  After a search
    on a fresh scraper that has gone through [N >= 1] pages the page
    attribute is [N]; the probe of that first search was at page 1, and a
    second [start] on the same scraper, whatever the transport answers
    then, opens with a probe at page [N] of the new keyword. *)
Theorem C10_probe_uses_current_page
  (net : transport) (k1 k2 : string) (N : Z) (j0 : json) :
  1 <= N ->
  succeeded (net 0%nat (search_request k1 1)) = Some j0 ->
  envelope j0 = true ->
  pages_of j0 = N ->
  (forall p, 1 <= p <= N ->
     benign (net (Z.to_nat p) (search_request k1 p)) = true) ->
  let st1 := snd (Scraper.start net k1 Scraper.fresh) in
  (forall net' st,
      nth_error (sent (snd (Scraper.paginated_search net' st))) (length (sent st))
      = Some (request_of (self st)))
  /\ nth_error (sent st1) 0 = Some (search_request k1 1)
  /\ page (self st1) = N
  /\ (forall net',
        nth_error (sent (snd (Scraper.start net' k2 st1))) (length (sent st1))
        = Some (search_request k2 N)).
Proof.
  intros HN Hs He Hpages Hloop st1.
  assert (Hfirst : forall net' st,
             nth_error (sent (snd (Scraper.paginated_search net' st)))
               (length (sent st)) = Some (request_of (self st))).
  { intros net' st. destruct (paginated_search_probe net' st) as [tail ->].
    apply nth_error_middle. }
  split; [ exact Hfirst | ].
  assert (Hc0 : stored (net 0%nat (search_request k1 1)) JNull = j0)
    by (unfold stored; rewrite Hs; reflexivity).
  destruct (start_fresh_benign net k1) as (c & lg & E).
  - unfold benign. rewrite Hs, He. apply orb_true_r.
  - rewrite Hc0, Hpages. exact Hloop.
  - rewrite Hc0, Hpages, (range_1_last N 1 HN) in E.
    subst st1. rewrite E. cbn [snd self sent].
    split; [ reflexivity | ]. split; [ reflexivity | ].
    intros net'. rewrite start_paginated_search.
    match goal with |- context [ Scraper.paginated_search net' ?s ] =>
      exact (Hfirst net' s) end.
Qed.

Lemma C10_witness :
  let st1 := snd (Scraper.start net_banks "banks" Scraper.fresh) in
  (forall net' st,
      nth_error (sent (snd (Scraper.paginated_search net' st))) (length (sent st))
      = Some (request_of (self st)))
  /\ nth_error (sent st1) 0 = Some (search_request "banks" 1)
  /\ page (self st1) = 2
  /\ (forall net',
        nth_error (sent (snd (Scraper.start net' "insurers" st1)))
          (length (sent st1))
        = Some (search_request "insurers" 2)).
Proof.
  apply (C10_probe_uses_current_page net_banks "banks" "insurers" 2
           (page_of [acme; bravo] 2)).
  - lia.
  - reflexivity.
  - reflexivity.
  - reflexivity.
  - intros p Hp.
    assert (Hcases : p = 1 \/ p = 2) by lia.
    destruct Hcases as [-> | ->]; reflexivity.
Defined.

(** ** A failed page *)

(** C1, on the code.  The search reports two pages, page 1 holds one
    company and the fetch of page 2 fails with status 500: the envelope of
    page 1 is still stored when page 2 is extracted, and its company is
    appended a second time.  The result has two records where the pages
    hold one and none. *)
Theorem C1_failed_page_appends_stored_envelope_again :
  let run := Scraper.start net_second_page_down "banks" Scraper.fresh in
  succeeded (net_second_page_down 1%nat (search_request "banks" 1))
    = Some (page_of [acme] 2)
  /\ failed (net_second_page_down 2%nat (search_request "banks" 2)) = true
  /\ fst run = Return [acme; acme]
  /\ content (self (snd run)) = page_of [acme] 2
  /\ page (self (snd run)) = 2.
Proof.
  cbv zeta. repeat split; reflexivity.
Qed.

(** ** Extraction *)

(** C7, as the code has it.  When the stored content is [None] or an
    object whose [pagination], if present, is an object, neither
    extraction raises.  [get_companies_data] returns the [companies] field,
    or the empty list when it is absent; it logs a warning only when the
    content is [None] or the empty object, and the success message at
    level info otherwise, also when [companies] is absent.
    [get_total_pages] returns [pagination.pages], or 1 when [pagination]
    or [pages] is absent; it logs a warning when [pagination] is absent and
    the page count at level info otherwise. *)
Theorem C7_extraction_on_object_or_none (st : machine) :
  object_or_none (content (self st)) = true ->
  let c := content (self st) in
  let companies :=
    match field "companies" c with
    | Some v => v
    | None => JArr []
    end in
  let total_pages :=
    match field "pagination" c with
    | Some pagination =>
        match field "pages" pagination with
        | Some n => n
        | None => JInt 1
        end
    | None => JInt 1
    end in
  Scraper.get_companies_data st =
    (Return companies,
     mkMachine (self st) (sent st)
       (logged st ++
          [if Py.truthy c
           then mkLog INFO "Dados das empresas extraídos com sucesso" []
           else mkLog WARNING "Nenhum conteúdo disponível para extração" []]))
  /\ Scraper.get_total_pages st =
    (Return total_pages,
     mkMachine (self st) (sent st)
       (logged st ++
          [match field "pagination" c with
           | Some _ =>
               mkLog INFO "Número total de páginas: {}" [ArgJson total_pages]
           | None =>
               mkLog WARNING "Nenhuma informação de paginação encontrada" []
           end])).
Proof.
  unfold object_or_none, field. run.
  destruct (content (self st)) as [ | b | n | f | s | l | m ];
    try discriminate; intros H; cbv zeta.
  - split; reflexivity.
  - destruct m as [ | kv m ]; [ split; reflexivity | ].
    cbn [Py.truthy Py.get Py.contains Py.getitem self sent logged].
    split; [ reflexivity | ].
    destruct (Py.dict_get "pagination" (kv :: m)) as [ [ | | | | | | pg ] | ];
      try discriminate; reflexivity.
Qed.

Lemma C7_witness :
  let st := mkMachine
              (with_content (JObj [("pagination", JObj [("pages", JInt 2)])])
                 Scraper.__init__) [] [] in
  Scraper.get_companies_data st =
    (Return (JArr []),
     mkMachine (self st) []
       [mkLog INFO "Dados das empresas extraídos com sucesso" []])
  /\ Scraper.get_total_pages st =
    (Return (JInt 2),
     mkMachine (self st) []
       [mkLog INFO "Número total de páginas: {}" [ArgJson (JInt 2)]]).
Proof.
  apply (C7_extraction_on_object_or_none
           (mkMachine
              (with_content (JObj [("pagination", JObj [("pages", JInt 2)])])
                 Scraper.__init__) [] [])).
  reflexivity.
Defined.

(** C7, as stated, fails.  An envelope without [companies] resolves to
    the empty list with the success message logged at level info, not with
    a warning; and extraction raises on a content that is not an object,
    here a JSON array. *)
Lemma C7_absent_companies_is_not_a_warning :
  let st := mkMachine
              (with_content (JObj [("pagination", JObj [("pages", JInt 2)])])
                 Scraper.__init__) [] [] in
  let malformed := mkMachine (with_content (JArr [JInt 1]) Scraper.__init__) [] [] in
  fst (Scraper.get_companies_data st) = Return (JArr [])
  /\ logged (snd (Scraper.get_companies_data st)) =
     [mkLog INFO "Dados das empresas extraídos com sucesso" []]
  /\ ~ In WARNING (map log_level (logged (snd (Scraper.get_companies_data st))))
  /\ fst (Scraper.get_companies_data malformed) = Raise AttributeError.
Proof.
  cbv zeta. repeat split; try reflexivity.
  cbn. intros [H | []]. discriminate H.
Qed.

(** * Further properties of the code *)

(** ** One fetch that does not succeed *)

Section FetchCases.

Variable net : transport.

(** X1. When [http.get] returns a response whose status is not 200, as the
    session does for a status that it does not retry, such as 404 (for a
    status of its retry list [http.get] raises instead, which is X2), the
    fetch returns [None] and leaves the scraper as it was, stored content
    included; the body is not decoded, and two lines are logged at level
    error, the status and then the text of the body. *)
Theorem X1_error_status_keeps_content (st : machine) (r : Requests.response) :
  net (length (sent st)) (request_of (self st)) = Responded r ->
  Requests.status_code r <> 200 ->
  Scraper.search_companies net st =
  (Return JNull,
   mkMachine (self st)
     (sent st ++ [request_of (self st)])
     (logged st ++
        [mkLog ERROR "Falha na requisição com código de status {}"
           [ArgInt (Requests.status_code r)];
         mkLog ERROR (Requests.text r) []])).
Proof.
  intros Hn Hs. unfold request_of in Hn. run. rewrite Hn.
  cbn [self sent logged].
  destruct (Z.eqb_spec (Requests.status_code r) 200) as [E | _];
    [ contradiction | ].
  cbn [self sent logged]. rewrite <- app_assoc. reflexivity.
Qed.

(** X2. Only [RequestException] is caught.  When the transport raises
    one, or the decoding of a 200 body does, the fetch returns [None],
    keeps the scraper as it was and logs the exception at level error;
    any other exception leaves [search_companies] with the content
    unchanged and nothing logged. *)
Theorem X2_only_RequestException_is_caught (st : machine) (e : exn) :
  (net (length (sent st)) (request_of (self st)) = GetRaised e
   \/ exists r, net (length (sent st)) (request_of (self st)) = Responded r
                /\ Requests.status_code r = 200
                /\ Requests.json_body r = Raise e) ->
  Scraper.search_companies net st =
  if is_RequestException e then
    (Return JNull,
     mkMachine (self st) (sent st ++ [request_of (self st)])
       (logged st ++ [mkLog ERROR "Falha na requisição: {}" [ArgExn e]]))
  else
    (Raise e,
     mkMachine (self st) (sent st ++ [request_of (self st)]) (logged st)).
Proof.
  unfold request_of. run. intros [Hn | (r & Hn & Hs & Hj)]; rewrite Hn.
  - destruct (is_RequestException e); reflexivity.
  - cbn [self sent logged]. rewrite Hs, Hj. cbn [Z.eqb Pos.eqb self sent logged].
    destruct (is_RequestException e); reflexivity.
Qed.

End FetchCases.

Lemma X1_witness :
  Scraper.search_companies net_404 Scraper.fresh =
  (Return JNull,
   mkMachine (self Scraper.fresh)
     (sent Scraper.fresh ++ [request_of (self Scraper.fresh)])
     (logged Scraper.fresh ++
        [mkLog ERROR "Falha na requisição com código de status {}" [ArgInt 404];
         mkLog ERROR "Not Found" []])).
Proof.
  apply (X1_error_status_keeps_content net_404 Scraper.fresh
           (Requests.mkResponse 404 "Not Found"
              (Raise (ValueError "no JSON")))).
  - reflexivity.
  - cbn. discriminate.
Defined.

Lemma X2_witness :
  Scraper.search_companies net_not_json Scraper.fresh =
  (Raise (ValueError "Expecting value"),
   mkMachine (self Scraper.fresh)
     (sent Scraper.fresh ++ [request_of (self Scraper.fresh)])
     (logged Scraper.fresh)).
Proof.
  apply (X2_only_RequestException_is_caught net_not_json Scraper.fresh
           (ValueError "Expecting value")).
  right. eexists. split; [ reflexivity | ]. split; reflexivity.
Defined.

(** ** Extraction on any content *)

(** X3. On a falsy content of any type ([None], [{}], [[]], the empty
    string, zero, [False]) both extractions resolve to their defaults with
    a warning: the empty list and the page count 1. *)
Theorem X3_falsy_content_gives_defaults (st : machine) :
  Py.truthy (content (self st)) = false ->
  Scraper.get_companies_data st =
    (Return (JArr []),
     mkMachine (self st) (sent st)
       (logged st ++ [mkLog WARNING "Nenhum conteúdo disponível para extração" []]))
  /\ Scraper.get_total_pages st =
    (Return (JInt 1),
     mkMachine (self st) (sent st)
       (logged st ++
          [mkLog WARNING "Nenhuma informação de paginação encontrada" []])).
Proof.
  intros H. run. rewrite H. split; reflexivity.
Qed.

Lemma X3_witness :
  let st := mkMachine (with_content (JArr []) Scraper.__init__) [] [] in
  Scraper.get_companies_data st =
    (Return (JArr []),
     mkMachine (self st) (sent st)
       (logged st ++ [mkLog WARNING "Nenhum conteúdo disponível para extração" []]))
  /\ Scraper.get_total_pages st =
    (Return (JInt 1),
     mkMachine (self st) (sent st)
       (logged st ++
          [mkLog WARNING "Nenhuma informação de paginação encontrada" []])).
Proof.
  apply (X3_falsy_content_gives_defaults
           (mkMachine (with_content (JArr []) Scraper.__init__) [] [])).
  reflexivity.
Defined.

(** The contents that are not a dict. *)
Lemma not_object_get (c : json) (k : string) (d : json) :
  (forall m, c <> JObj m) ->
  Py.get c k d = Raise AttributeError.
Proof.
  intros H. destruct c; try reflexivity. exfalso. apply (H members eq_refl).
Qed.

(** X4. On a truthy content that is not an object (a non-empty list or
    string, a number, [True]) [get_companies_data] raises [AttributeError]
    before it logs anything, and changes nothing. *)
Theorem X4_truthy_non_object_raises (st : machine) :
  Py.truthy (content (self st)) = true ->
  (forall m, content (self st) <> JObj m) ->
  Scraper.get_companies_data st = (Raise AttributeError, st).
Proof.
  intros Ht Hm. run. rewrite Ht.
  rewrite (not_object_get _ _ _ Hm).
  destruct st as [s snt lg]. reflexivity.
Qed.

Lemma X4_witness :
  let st := mkMachine (with_content (JStr "Service Unavailable") Scraper.__init__) [] [] in
  Scraper.get_companies_data st = (Raise AttributeError, st).
Proof.
  apply (X4_truthy_non_object_raises
           (mkMachine (with_content (JStr "Service Unavailable") Scraper.__init__) [] [])).
  - reflexivity.
  - intros m H. discriminate H.
Defined.

Lemma dict_get_some_truthy (k : string) (m : list (string * json)) (v : json) :
  Py.dict_get k m = Some v -> Py.truthy (JObj m) = true.
Proof. destruct m; [ discriminate | reflexivity ]. Qed.

Lemma get_total_pages_present (st : machine) (m pg : list (string * json)) :
  content (self st) = JObj m ->
  Py.dict_get "pagination" m = Some (JObj pg) ->
  Scraper.get_total_pages st =
  (Return (match Py.dict_get "pages" pg with Some n => n | None => JInt 1 end),
   mkMachine (self st) (sent st)
     (logged st ++
        [mkLog INFO "Número total de páginas: {}"
           [ArgJson (match Py.dict_get "pages" pg with
                     | Some n => n
                     | None => JInt 1
                     end)]])).
Proof.
  intros Hc Hp. run. rewrite Hc, (dict_get_some_truthy _ _ _ Hp).
  cbn [Py.contains Py.getitem]. rewrite Hp.
  cbn [Py.get self sent logged]. reflexivity.
Qed.

(** X5. When the envelope has a [pagination] field that is not an object
    ([null], a number, a list, a string), [get_total_pages] raises
    [AttributeError] before it logs anything, and changes nothing: the
    default of 1 covers an absent field, not a field of another type. *)
Theorem X5_pagination_of_other_type_raises
  (st : machine) (m : list (string * json)) (v : json) :
  content (self st) = JObj m ->
  Py.dict_get "pagination" m = Some v ->
  (forall pg, v <> JObj pg) ->
  Scraper.get_total_pages st = (Raise AttributeError, st).
Proof.
  intros Hc Hp Hv. run. rewrite Hc, (dict_get_some_truthy _ _ _ Hp).
  cbn [Py.contains Py.getitem]. rewrite Hp. cbn [self sent logged].
  rewrite (not_object_get _ _ _ Hv).
  destruct st as [s snt lg]. reflexivity.
Qed.

Lemma X5_witness :
  let st := mkMachine
              (with_content (JObj [("companies", JArr []); ("pagination", JNull)])
                 Scraper.__init__) [] [] in
  Scraper.get_total_pages st = (Raise AttributeError, st).
Proof.
  apply (X5_pagination_of_other_type_raises
           (mkMachine
              (with_content (JObj [("companies", JArr []); ("pagination", JNull)])
                 Scraper.__init__) [] [])
           [("companies", JArr []); ("pagination", JNull)] JNull).
  - reflexivity.
  - reflexivity.
  - intros pg H. discriminate H.
Defined.

(** ** A page count or a companies field of another type *)

Lemma range_1_to_not_int (v : json) :
  (forall n, v <> JInt n) -> (forall b, v <> JBool b) ->
  Py.range_1_to v = Raise TypeError.
Proof.
  intros Hn Hb. destruct v; try reflexivity; exfalso.
  - apply (Hb b eq_refl).
  - apply (Hn n eq_refl).
Qed.

Lemma extend_not_iterable (acc : list json) (v : json) :
  (forall l, v <> JArr l) -> (forall s, v <> JStr s) ->
  (forall m, v <> JObj m) ->
  Py.extend acc v = Raise TypeError.
Proof.
  intros Hl Hs Hm. destruct v; try reflexivity; exfalso.
  - apply (Hs s eq_refl).
  - apply (Hl items eq_refl).
  - apply (Hm members eq_refl).
Qed.

Section OtherTypes.

Variable net : transport.

(** X6. When the probe succeeds and [pagination.pages] is neither an
    integer nor a boolean (a string such as "3", [null], a float, a list),
    [paginated_search] raises [TypeError] on [range]: only the probe has
    been sent and no list is returned. *)
Theorem X6_page_count_of_other_type_raises
  (st : machine) (m pg : list (string * json)) (v : json) :
  succeeded (net (length (sent st)) (request_of (self st))) = Some (JObj m) ->
  Py.dict_get "pagination" m = Some (JObj pg) ->
  Py.dict_get "pages" pg = Some v ->
  (forall n, v <> JInt n) ->
  (forall b, v <> JBool b) ->
  fst (Scraper.paginated_search net st) = Raise TypeError
  /\ sent (snd (Scraper.paginated_search net st)) =
     sent st ++ [request_of (self st)].
Proof.
  intros Hs Hp Hv Hn Hb.
  assert (E : exists lg,
             Scraper.paginated_search net st =
             (Raise TypeError,
              mkMachine (with_content (JObj m) (self st))
                (sent st ++ [request_of (self st)]) (logged st ++ lg))).
  { unfold Scraper.paginated_search.
    unfold bind at 1. rewrite (search_companies_succeeded net st _ Hs).
    unfold bind at 1.
    match goal with |- context [ Scraper.get_total_pages ?s ] =>
      rewrite (get_total_pages_present s m pg eq_refl Hp) end.
    rewrite Hv. unfold bind at 1, lift.
    rewrite (range_1_to_not_int v Hn Hb). cbn [self sent logged].
    rewrite <- app_assoc. eexists. reflexivity. }
  destruct E as [lg E]. rewrite E. split; reflexivity.
Qed.

(** X7. When a page of the loop is fetched with success and its
    [companies] field is present but not iterable ([null], a number, a
    boolean), the loop raises [TypeError] at that page: the default of the
    empty list covers an absent field only, the records gathered from the
    earlier pages are not returned, and the pages after it are not
    requested. *)
Theorem X7_companies_not_iterable_raises
  (p : Z) (pages : list Z) (acc : list json) (st : machine)
  (m : list (string * json)) (v : json) :
  succeeded (net (length (sent st)) (request_at (self st) p)) = Some (JObj m) ->
  Py.dict_get "companies" m = Some v ->
  (forall l, v <> JArr l) ->
  (forall s, v <> JStr s) ->
  (forall m', v <> JObj m') ->
  fst (Scraper.for_page_in net (p :: pages) acc st) = Raise TypeError
  /\ sent (snd (Scraper.for_page_in net (p :: pages) acc st)) =
     sent st ++ [request_at (self st) p]
  /\ page (self (snd (Scraper.for_page_in net (p :: pages) acc st))) = p.
Proof.
  intros Hs Hc Hl Hstr Hobj.
  pose proof (extend_not_iterable acc v Hl Hstr Hobj) as Hv.
  assert (E : exists lg,
             Scraper.for_page_in net (p :: pages) acc st =
             (Raise TypeError,
              mkMachine (with_content (JObj m) (with_page p (self st)))
                (sent st ++ [request_at (self st) p]) (logged st ++ lg))).
  { cbn [Scraper.for_page_in].
    set (st1 := mkMachine (with_page p (self st)) (sent st) (logged st)).
    unfold bind at 1. change (set_page p st) with (Return tt, st1).
    cbv beta iota.
    unfold bind at 1. rewrite (search_companies_succeeded net st1 _ Hs).
    unfold bind at 1.
    assert (E2 : forall st2, content (self st2) = JObj m ->
               Scraper.get_companies_data st2 =
               (Return v,
                mkMachine (self st2) (sent st2)
                  (logged st2 ++
                     [mkLog INFO "Dados das empresas extraídos com sucesso" []]))).
    { intros st2 H2. run. rewrite H2, (dict_get_some_truthy _ _ _ Hc).
      cbn [Py.get]. rewrite Hc. reflexivity. }
    rewrite E2 by reflexivity.
    unfold bind at 1, lift. rewrite Hv.
    cbn [st1 self sent logged]. rewrite <- app_assoc. eexists. reflexivity. }
  destruct E as [lg E]. rewrite E. repeat split; reflexivity.
Qed.

End OtherTypes.

Lemma X6_witness :
  fst (Scraper.paginated_search net_pages_as_string Scraper.fresh)
    = Raise TypeError
  /\ sent (snd (Scraper.paginated_search net_pages_as_string Scraper.fresh)) =
     sent Scraper.fresh ++ [request_of (self Scraper.fresh)].
Proof.
  apply (X6_page_count_of_other_type_raises net_pages_as_string Scraper.fresh
           [("companies", JArr [acme]);
            ("pagination", JObj [("pages", JStr "3")])]
           [("pages", JStr "3")] (JStr "3")).
  - reflexivity.
  - reflexivity.
  - reflexivity.
  - intros n H. discriminate H.
  - intros b H. discriminate H.
Defined.

Lemma X7_witness :
  fst (Scraper.for_page_in net_companies_null [1; 2] [acme] Scraper.fresh)
    = Raise TypeError
  /\ sent (snd (Scraper.for_page_in net_companies_null [1; 2] [acme] Scraper.fresh)) =
     sent Scraper.fresh ++ [request_at (self Scraper.fresh) 1]
  /\ page (self (snd (Scraper.for_page_in net_companies_null [1; 2] [acme]
                        Scraper.fresh))) = 1.
Proof.
  apply (X7_companies_not_iterable_raises net_companies_null 1 [2] [acme]
           Scraper.fresh
           [("companies", JNull); ("pagination", JObj [("pages", JInt 1)])]
           JNull); try reflexivity; intros x H; discriminate H.
Defined.

(** ** What the loop and the search keep, whatever the transport answers *)

Lemma extend_prefix (acc acc' : list json) (v : json) :
  Py.extend acc v = Return acc' -> exists more, acc' = acc ++ more.
Proof.
  destruct v; cbn; intros H; try discriminate H;
    injection H as <-; eexists; reflexivity.
Qed.

Lemma with_content_page_id (s : ReclameAquiScraper) :
  with_content (content s) (with_page (page s) s) = s.
Proof. destruct s. reflexivity. Qed.

Section Trace.

Variable net : transport.

(** The loop requests the pages in order and without gaps up to the page
    where it ends, leaves the page attribute at the last page requested,
    touches no attribute but [page] and [content], and only appends to the
    list it builds. *)
Lemma for_page_in_trace (pages : list Z) :
  forall (acc : list json) (st : machine),
    exists o k c lg,
      Scraper.for_page_in net pages acc st =
      (o,
       mkMachine
         (with_content c
            (with_page (last (firstn k pages) (page (self st))) (self st)))
         (sent st ++ map (request_at (self st)) (firstn k pages))
         (logged st ++ lg))
      /\ (k <= length pages)%nat
      /\ match o with
         | Return r => k = length pages /\ exists more, r = acc ++ more
         | Raise _ => (1 <= k)%nat
         end.
Proof.
  induction pages as [ | p pages IH ]; intros acc st.
  - exists (Return acc), 0%nat, (content (self st)), [].
    cbn [Scraper.for_page_in firstn last map length ret].
    rewrite with_content_page_id, !app_nil_r.
    split; [ destruct st; reflexivity | ].
    split; [ lia | ]. split; [ reflexivity | ].
    exists []. rewrite app_nil_r. reflexivity.
  - cbn [Scraper.for_page_in].
    set (st1 := mkMachine (with_page p (self st)) (sent st) (logged st)).
    unfold bind at 1. change (set_page p st) with (Return tt, st1).
    cbv beta iota.
    destruct (search_companies_always net st1) as (o1 & c1 & lg1 & E1).
    unfold bind at 1. rewrite E1.
    assert (Hstop : forall (e : exn) c' lg',
               exists o k c lg,
                 (@Raise (list json) e,
                  mkMachine (with_content c' (with_page p (self st)))
                    (sent st ++ [request_at (self st) p]) (logged st ++ lg')) =
                 (o,
                  mkMachine
                    (with_content c
                       (with_page (last (firstn k (p :: pages)) (page (self st)))
                          (self st)))
                    (sent st ++ map (request_at (self st)) (firstn k (p :: pages)))
                    (logged st ++ lg))
                 /\ (k <= length (p :: pages))%nat
                 /\ match o with
                    | Return r => k = length (p :: pages)
                                  /\ exists more, r = acc ++ more
                    | Raise _ => (1 <= k)%nat
                    end).
    { intros e c' lg'. exists (Raise e), 1%nat, c', lg'.
      cbn [firstn last map length]. split; [ reflexivity | ]. split; lia. }
    destruct o1 as [ r1 | e1 ]; [ | apply (Hstop e1 c1 lg1) ].
    unfold bind at 1.
    match goal with |- context [ Scraper.get_companies_data ?s ] =>
      destruct (get_companies_data_always s) as (o2 & lg2 & E2) end.
    rewrite E2. cbn [st1 self sent logged].
    destruct o2 as [ r2 | e2 ];
      [ | rewrite <- app_assoc; apply (Hstop e2 c1 (lg1 ++ lg2)) ].
    unfold bind at 1, lift.
    destruct (Py.extend acc r2) as [ acc' | e3 ] eqn:Hext;
      [ | rewrite <- app_assoc; apply (Hstop e3 c1 (lg1 ++ lg2)) ].
    destruct (extend_prefix _ _ _ Hext) as [more1 ->].
    match goal with |- context [ Scraper.for_page_in net pages ?a ?s ] =>
      destruct (IH a s) as (o & k & c & lg & E3 & Hk & Ho) end.
    rewrite E3. cbn [self sent logged page with_content with_page].
    exists o, (S k), c, (lg1 ++ lg2 ++ lg).
    cbn [firstn map length]. rewrite last_cons_default.
    rewrite <- !app_assoc. split; [ reflexivity | ]. split; [ lia | ].
    destruct o as [ r | e ]; [ | lia ].
    destruct Ho as [-> [more ->]]. split; [ reflexivity | ].
    exists (more1 ++ more). rewrite app_assoc. reflexivity.
Qed.

End Trace.

Section Kept.

Variable net : transport.

(** X8. Whatever the transport answers, the loop requests the pages of
    its list in order and without gaps, up to the page where it ends: all
    of them when it returns, at least one when it raises.  It leaves the
    page attribute at the last page requested, keeps the keyword, the rank
    kind, the page size and the session, and returns a list that starts
    with the records it was given. *)
Theorem X8_loop_requests_pages_in_order
  (pages : list Z) (acc : list json) (st : machine) :
  let run := Scraper.for_page_in net pages acc st in
  let s' := self (snd run) in
  exists k,
    (k <= length pages)%nat
    /\ sent (snd run) = sent st ++ map (request_at (self st)) (firstn k pages)
    /\ page s' = last (firstn k pages) (page (self st))
    /\ keyword s' = keyword (self st)
    /\ type_rank s' = type_rank (self st)
    /\ results_per_page s' = results_per_page (self st)
    /\ http s' = http (self st)
    /\ match fst run with
       | Return r => k = length pages /\ exists more, r = acc ++ more
       | Raise _ => (1 <= k)%nat
       end.
Proof.
  cbv zeta.
  destruct (for_page_in_trace net pages acc st) as (o & k & c & lg & E & Hk & Ho).
  rewrite E. cbn [fst snd self sent]. exists k.
  repeat split; try reflexivity; try exact Hk.
  destruct o; exact Ho.
Qed.

(** The search touches no attribute but [page] and [content], and opens
    its trace with the probe. *)
Lemma paginated_search_always (st : machine) :
  exists o c p tail lg,
    Scraper.paginated_search net st =
    (o,
     mkMachine (with_content c (with_page p (self st)))
       (sent st ++ request_of (self st) :: tail) (logged st ++ lg)).
Proof.
  unfold Scraper.paginated_search.
  destruct (search_companies_always net st) as (o1 & c1 & lg1 & E1).
  unfold bind at 1. rewrite E1.
  assert (Hstop : forall A (e : exn) c' lg',
             exists (o : outcome A) c p tail lg,
               (Raise e,
                mkMachine (with_content c' (self st))
                  (sent st ++ [request_of (self st)]) (logged st ++ lg')) =
               (o,
                mkMachine (with_content c (with_page p (self st)))
                  (sent st ++ request_of (self st) :: tail) (logged st ++ lg))).
  { intros A e c' lg'. exists (Raise e), c', (page (self st)), [], lg'.
    destruct st as [[pg rpp kw tr h c0] snt lg0]. reflexivity. }
  destruct o1 as [ r1 | e1 ]; [ | apply Hstop ].
  unfold bind at 1.
  match goal with |- context [ Scraper.get_total_pages ?s ] =>
    destruct (get_total_pages_always s) as (o2 & lg2 & E2) end.
  rewrite E2. cbn [self sent logged].
  destruct o2 as [ r2 | e2 ]; [ | rewrite <- app_assoc; apply Hstop ].
  unfold bind at 1, lift.
  destruct (Py.range_1_to r2) as [ pages | e3 ];
    [ | rewrite <- app_assoc; apply Hstop ].
  unfold bind at 1.
  match goal with |- context [ Scraper.for_page_in net pages [] ?s ] =>
    destruct (for_page_in_trace net pages [] s)
      as (o4 & k & c & lg & E4 & _ & _) end.
  rewrite E4. cbn [self sent logged page with_content with_page].
  unfold bind, logger, ret.
  destruct o4 as [ r4 | e4 ]; cbn [self sent logged];
    rewrite <- !app_assoc; do 5 eexists; reflexivity.
Qed.

(** X9. Whatever the transport answers, and whether it returns or
    raises, [start] leaves a scraper whose keyword is the one it was given
    and whose rank kind, page size and session are untouched; it only adds
    to the trace of requests, beginning with the probe for the new keyword
    at the page the scraper was on, and to the log, beginning with the
    line that announces the keyword. *)
Theorem X9_start_keeps_query_parameters (k : string) (st : machine) :
  let st' := snd (Scraper.start net k st) in
  keyword (self st') = k
  /\ type_rank (self st') = type_rank (self st)
  /\ results_per_page (self st') = results_per_page (self st)
  /\ http (self st') = http (self st)
  /\ (exists tail,
        sent st' = sent st ++ request_of (with_keyword k (self st)) :: tail)
  /\ (exists lg,
        logged st' =
        logged st ++
          mkLog INFO "Iniciando busca para a palavra-chave: {}" [ArgStr k] :: lg).
Proof.
  cbv zeta. rewrite start_paginated_search.
  match goal with |- context [ Scraper.paginated_search net ?s ] =>
    destruct (paginated_search_always s) as (o & c & p & tail & lg & E) end.
  rewrite E. cbn [snd self sent logged].
  repeat split; try reflexivity.
  - exists tail. reflexivity.
  - exists lg. rewrite <- app_assoc. reflexivity.
Qed.

(** X10. When [paginated_search] returns a list, the last line it has
    logged carries the length of that list. *)
Theorem X10_logged_count_is_length_of_result
  (st st' : machine) (result : list json) :
  Scraper.paginated_search net st = (Return result, st') ->
  exists lg,
    logged st' =
    lg ++ [mkLog INFO "Busca paginada concluída. Total de empresas encontradas: {}"
             [ArgInt (Z.of_nat (length result))]].
Proof.
  unfold Scraper.paginated_search.
  unfold bind at 1. destruct (Scraper.search_companies net st) as [[r1 | e1] st1];
    [ | discriminate ].
  unfold bind at 1. destruct (Scraper.get_total_pages st1) as [[r2 | e2] st2];
    [ | discriminate ].
  unfold bind at 1, lift.
  destruct (Py.range_1_to r2) as [ pages | e3 ]; [ | discriminate ].
  unfold bind at 1.
  destruct (Scraper.for_page_in net pages [] st2) as [[r4 | e4] st4];
    [ | discriminate ].
  unfold bind, logger, ret. intros H. injection H as <- <-.
  cbn [logged]. eexists. reflexivity.
Qed.

(** X11. A page whose fetch fails contributes the records of the envelope
    stored before it, which stays stored: the empty list only when nothing
    is stored. *)
Theorem X11_failed_page_contributes_stored_records
  (p : Z) (acc : list json) (st : machine) :
  extractable (content (self st)) = true ->
  failed (net (length (sent st)) (request_at (self st) p)) = true ->
  fst (Scraper.for_page_in net [p] acc st)
    = Return (acc ++ companies_of (content (self st)))
  /\ content (self (snd (Scraper.for_page_in net [p] acc st)))
     = content (self st).
Proof.
  intros Hc Hf.
  assert (Hn : succeeded (net (length (sent st)) (request_at (self st) p)) = None).
  { destruct (succeeded _) as [ j | ] eqn:Hs; [ | reflexivity ].
    rewrite (succeeded_not_failed _ _ Hs) in Hf. discriminate Hf. }
  cbn [Scraper.for_page_in].
  set (st1 := mkMachine (with_page p (self st)) (sent st) (logged st)).
  assert (E : exists lg,
             (set_page p;; Scraper.search_companies net;;
              companies <- Scraper.get_companies_data;;
              all_companies <- lift (Py.extend acc companies);;
              ret all_companies) st =
             (Return (acc ++ companies_of (content (self st))),
              mkMachine (with_page p (self st))
                (sent st ++ [request_at (self st) p]) (logged st ++ lg))).
  { unfold bind at 1. change (set_page p st) with (Return tt, st1).
    cbv beta iota.
    destruct (search_companies_failed net st1 Hf) as [lg1 E1].
    unfold bind at 1. rewrite E1.
    unfold bind at 1.
    match goal with |- context [ Scraper.get_companies_data ?s ] =>
      destruct (get_companies_data_extractable s Hc) as [lg2 E2] end.
    rewrite E2. cbn [st1 self sent logged content with_page].
    unfold bind, lift, ret. cbn [Py.extend].
    rewrite <- app_assoc. eexists. reflexivity. }
  destruct E as [lg E]. rewrite E. split; reflexivity.
Qed.

(** X12. The stored content is not reset between searches.  When every
    fetch of a search fails on a scraper that still holds an envelope, the
    search returns the records of that envelope, once for each page of its
    page count. *)
Theorem X12_failed_search_returns_stored_records (st : machine) :
  extractable (content (self st)) = true ->
  (forall n r, failed (net n r) = true) ->
  fst (Scraper.paginated_search net st) =
  Return (flat_map (fun _ => companies_of (content (self st)))
            (Py.range 1 (pages_of (content (self st)) + 1))).
Proof.
  intros Hc Hf.
  assert (Hn : forall n r, succeeded (net n r) = None).
  { intros n r. destruct (succeeded (net n r)) as [ j | ] eqn:Hs; [ | reflexivity ].
    pose proof (Hf n r) as Hf'.
    rewrite (succeeded_not_failed _ _ Hs) in Hf'. discriminate Hf'. }
  assert (Hp : probed net st = content (self st))
    by (unfold probed, stored; rewrite Hn; reflexivity).
  destruct (paginated_search_benign net st) as (c & lg & E).
  - unfold benign. rewrite Hf. reflexivity.
  - rewrite Hp. exact Hc.
  - intros p _. unfold benign. rewrite Hf. reflexivity.
  - rewrite E, Hp. cbn [fst]. f_equal.
    apply harvest_all_failed. intros i p _. apply Hn.
Qed.

End Kept.

Lemma X10_witness :
  exists lg,
    logged (snd (Scraper.paginated_search net_500 Scraper.fresh)) =
    lg ++ [mkLog INFO "Busca paginada concluída. Total de empresas encontradas: {}"
             [ArgInt (Z.of_nat (length (@nil json)))]].
Proof.
  apply (X10_logged_count_is_length_of_result net_500 Scraper.fresh
           (snd (Scraper.paginated_search net_500 Scraper.fresh)) []).
  reflexivity.
Defined.

Lemma X11_witness :
  let st := mkMachine (with_content (page_of [acme] 2) Scraper.__init__) [] [] in
  fst (Scraper.for_page_in net_500 [2] [acme] st)
    = Return ([acme] ++ companies_of (content (self st)))
  /\ content (self (snd (Scraper.for_page_in net_500 [2] [acme] st)))
     = content (self st).
Proof.
  apply (X11_failed_page_contributes_stored_records net_500 2 [acme]
           (mkMachine (with_content (page_of [acme] 2) Scraper.__init__) [] []));
    reflexivity.
Defined.

Lemma X12_witness :
  let st := mkMachine
              (with_content (page_of [corvo] 2)
                 (with_page 2 (with_keyword "banks" Scraper.__init__))) [] [] in
  fst (Scraper.paginated_search net_500 st) =
  Return (flat_map (fun _ => companies_of (content (self st)))
            (Py.range 1 (pages_of (content (self st)) + 1))).
Proof.
  apply (X12_failed_search_returns_stored_records net_500
           (mkMachine
              (with_content (page_of [corvo] 2)
                 (with_page 2 (with_keyword "banks" Scraper.__init__))) [] [])).
  - reflexivity.
  - intros n r. destruct n; reflexivity.
Defined.

(** ** The session *)

(** X13. The session dispatches a URL to the adapter with the retry
    policy exactly when the URL, in lower case, starts with [https://] or
    [http://], and has no adapter for it otherwise: the adapters that a
    new session comes with, which do not retry, are never selected. *)
Theorem X13_session_dispatch (url : string) :
  Requests.get_adapter Scraper._configure_session url =
  if (String.prefix "https://" (Py.lower url)
      || String.prefix "http://" (Py.lower url))%bool
  then Some adapter
  else None.
Proof.
  change (Requests.get_adapter Scraper._configure_session url)
    with (if String.prefix "https://" (Py.lower url) then Some adapter
          else if String.prefix "http://" (Py.lower url) then Some adapter
               else None).
  destruct (String.prefix "https://" (Py.lower url));
    destruct (String.prefix "http://" (Py.lower url)); reflexivity.
Qed.

(** ** The requests of the loop are distinct *)

Lemma string_length_append (s t : string) :
  String.length (s ++ t) = (String.length s + String.length t)%nat.
Proof. induction s as [ | a s IH ]; cbn; [ reflexivity | now rewrite IH ]. Qed.

Lemma string_app_inv_head (s t u : string) :
  (s ++ t = s ++ u)%string -> t = u.
Proof.
  induction s as [ | a s IH ]; cbn; intros H; [ exact H | ].
  injection H as H. apply IH. exact H.
Qed.

Lemma string_app_inv_tail (t : string) :
  forall s u : string, (s ++ t = u ++ t)%string -> s = u.
Proof.
  induction s as [ | a s IH ]; intros u H.
  - destruct u as [ | b u ]; [ reflexivity | exfalso ].
    apply (f_equal String.length) in H.
    rewrite !string_length_append in H. cbn in H. lia.
  - destruct u as [ | b u ].
    + exfalso. apply (f_equal String.length) in H.
      rewrite !string_length_append in H. cbn in H. lia.
    + cbn in H. injection H as -> H. f_equal. apply IH. exact H.
Qed.

Lemma to_int_not_nil (n : Z) :
  Z.to_int n <> Decimal.Pos Decimal.Nil /\ Z.to_int n <> Decimal.Neg Decimal.Nil.
Proof.
  assert (Hnorm : Decimal.norm (Z.to_int n) = Z.to_int n)
    by (rewrite <- DecimalZ.to_of, DecimalZ.of_to; reflexivity).
  split; intros H; rewrite H in Hnorm; discriminate Hnorm.
Qed.

(** The decimal rendering of an integer determines it. *)
Lemma str_int_inj (n n' : Z) : Py.str_int n = Py.str_int n' -> n = n'.
Proof.
  unfold Py.str_int. intros H.
  apply DecimalZ.to_int_inj.
  destruct (to_int_not_nil n) as [Hp Hn].
  destruct (to_int_not_nil n') as [Hp' Hn'].
  pose proof (NilZero.isi (Z.to_int n) Hp Hn) as E.
  pose proof (NilZero.isi (Z.to_int n') Hp' Hn') as E'.
  rewrite H in E. rewrite E in E'. injection E' as E'. exact E'.
Qed.

Lemma request_at_inj (s : ReclameAquiScraper) (p q : Z) :
  request_at s p = request_at s q -> p = q.
Proof.
  intros H. apply (f_equal Requests.url) in H.
  unfold request_at, query_url in H. cbn [Requests.url] in H.
  apply (string_app_inv_head base_url) in H.
  apply (string_app_inv_head "/segments/ranking/") in H.
  apply (string_app_inv_head (type_rank s)) in H.
  apply (string_app_inv_head "/") in H.
  apply (string_app_inv_head (keyword s)) in H.
  apply (string_app_inv_head "/") in H.
  apply string_app_inv_tail in H. apply str_int_inj. exact H.
Qed.

(** X14. The requests that the loop of a search sends for the pages 1 to
    [n] are pairwise distinct: no page is requested twice by the loop, so
    that the probe is the only request that can repeat. *)
Theorem X14_loop_requests_are_distinct (s : ReclameAquiScraper) (n : Z) :
  NoDup (map (request_at s) (Py.range 1 (n + 1))).
Proof.
  unfold Py.range. rewrite map_map.
  apply NoDup_map_NoDup_ForallPairs; [ | apply seq_NoDup ].
  intros i j _ _ H. apply request_at_inj in H. lia.
Qed.

(** ** Extraction reads only *)

(** X15. Neither extraction sends a request or changes an attribute of the
    scraper, whether it returns or raises: all it leaves behind is what it
    logs. *)
Theorem X15_extraction_reads_only (st : machine) :
  let after_companies := snd (Scraper.get_companies_data st) in
  let after_pages := snd (Scraper.get_total_pages st) in
  self after_companies = self st
  /\ sent after_companies = sent st
  /\ self after_pages = self st
  /\ sent after_pages = sent st
  /\ (exists lg, logged after_companies = logged st ++ lg)
  /\ (exists lg, logged after_pages = logged st ++ lg).
Proof.
  cbv zeta.
  destruct (get_companies_data_always st) as (o1 & lg1 & E1).
  destruct (get_total_pages_always st) as (o2 & lg2 & E2).
  rewrite E1, E2. cbn [snd self sent logged].
  repeat split; try reflexivity; eexists; reflexivity.
Qed.

(** ** The script *)

(** X16. Whatever the transport answers, the first request of the script
    is for the link that the comment at the head of the module gives for
    testing.  When the search returns, its list is printed once and the
    script ends with a log line whose braces are left without an argument,
    so that the data collected are not logged; when the search raises,
    nothing is printed. *)
Theorem X16_script (net : transport) :
  let keyword := "bancos-tradicionais-e-digitais" in
  (exists tail,
      sent (final (main net)) =
      Requests.mkRequest link_test
        [("User-Agent", user_agent); ("Accept", "application/json")] :: tail)
  /\ match fst (Scraper.start net keyword Scraper.fresh) with
     | Return data =>
         printed (main net) = [data]
         /\ exit (main net) = Return tt
         /\ exists lg,
              logged (final (main net)) =
              lg ++ [mkLog INFO "Dados coletados: {}" []]
     | Raise e =>
         printed (main net) = [] /\ exit (main net) = Raise e
     end.
Proof.
  cbv zeta.
  pose proof (start_paginated_search net "bancos-tradicionais-e-digitais"
                Scraper.fresh) as Es.
  match type of Es with _ = Scraper.paginated_search net ?s =>
    destruct (paginated_search_probe net s) as [tail Et] end.
  rewrite <- Es in Et. cbn [sent app] in Et.
  unfold main.
  destruct (Scraper.start net "bancos-tradicionais-e-digitais" Scraper.fresh)
    as [[data | e] st'].
  - cbn [snd fst] in *. unfold logger. cbn [final printed exit sent logged].
    split; [ exists tail; exact Et | ].
    split; [ reflexivity | ]. split; [ reflexivity | ].
    eexists. reflexivity.
  - cbn [snd fst final printed exit] in *.
    split; [ exists tail; exact Et | ]. split; reflexivity.
Qed.
